(** * account.py: the Lacework / Control Tower stack-set orchestrator

    A shallow embedding of [functions/source/account/account.py].

    The Lambda talks to five outside services (Secrets Manager,
    CloudFormation, SNS, the Honeycomb HTTP endpoint and the process clock).
    Every such call is an [event] of a trace; what the service answers is
    given by a [World], a deterministic oracle that sees the calls made so
    far.  Python exceptions are the [Raised] outcome of a small state/error
    monad [M]; [try]/[except] is [try_except].

    What the embedding leaves out:
    - [session.client(...)] builds a client and calls nothing; it is not an
      event and is taken not to fail;
    - the event and the message bodies are typed records, so a key the code
      reads from them is always there; [os.environ] stays a partial map and
      [os.environ[key]] raises [KeyError] on a missing key;
    - the text of a log line is a constructor of [log_msg] carrying the
      values the line formats;
    - the [while] loop of the locator takes a bound on its iterations;
      running past it is the outcome [OutOfFuel]. *)

From Stdlib Require Import List String Ascii ZArith Bool Lia.
Import ListNotations.

Local Open Scope string_scope.
Local Open Scope list_scope.

(** ** Python values and exceptions *)

(** The exception classes the code can meet.  All of them derive from
    [Exception], so a bare [except Exception] catches every one. *)
Inductive exn : Type :=
| KeyError (key : string)
| TypeError (msg : string)
| AttributeError (name : string)
| ClientError (code : string)
| OtherError (msg : string).

(** ** Data model *)

(** [params] is the value stored under a stack-set name in a message:
    [{"target_accounts": [...], "target_regions": [...]}]. *)
Record params : Type := mkParams {
  target_accounts : list string;
  target_regions : list string
}.

(** A message body is a JSON object; Python keeps its keys in document
    order and [messages.items()] walks them in that order. *)
Definition batch : Type := list (string * params).

Record parameter_override : Type := mkOverride {
  ParameterKey : string;
  ParameterValue : string;
  UsePreviousValue : bool;
  ResolvedValue : string
}.

Record operation_preferences : Type := mkPrefs {
  RegionConcurrencyType : string;
  FailureToleranceCount : Z
}.

(** The keyword arguments of [create_stack_instances]. *)
Record create_request : Type := mkCreate {
  StackSetName : string;
  Accounts : list string;
  Regions : list string;
  ParameterOverrides : list parameter_override;
  OperationPreferences : operation_preferences
}.

(** One entry of [page['Summaries']] of [list_stack_set_operations]. *)
Record operation : Type := mkOperation {
  OperationId : string;
  Status : string
}.

(** One page of the [list_stack_set_operations] paginator; the key
    ["Summaries"] may be missing. *)
Record operations_page : Type := mkOpsPage {
  op_Summaries : option (list operation)
}.

(** One entry of ['Summaries'] of [list_stack_instances]. *)
Record instance_summary : Type := mkInstance {
  si_Account : string;
  si_Region : string;
  si_Status : string
}.

(** A [list_stack_instances] response: both keys are optional. *)
Record instances_page : Type := mkInstPage {
  inst_Summaries : option (list instance_summary);
  inst_NextToken : option string
}.

(** An element of the Python list that
    [list_stack_instance_by_account_region] returns.  The first page's
    summaries are elements of their own; [append] adds a later page's whole
    ['Summaries'] list as ONE element. *)
Inductive instance_item : Type :=
| Summary (s : instance_summary)
| Page (l : list instance_summary).

(** What [list_stack_instance_by_account_region] returns: [False] or a list. *)
Inductive locator_result : Type :=
| RFalse
| RList (l : list instance_item).

(** The Lambda event, as far as the handler reads it. *)
Record sns_record : Type := mkRecord {
  Sns_Message : string
}.

Record managed_account_status : Type := mkStatus {
  state : string;
  accountId : string
}.

Record event_detail : Type := mkDetail {
  eventName : string;
  awsRegion : string;
  createManagedAccountStatus : managed_account_status
}.

Record lambda_event : Type := mkEvent {
  Records : option (list sns_record);
  detail : option event_detail
}.

(** [os.environ]. *)
Definition environ : Type := string -> option string.

(** ** Calls, log lines, traces *)

Inductive call : Type :=
| GetSecretValue (SecretId : string)
| DescribeStackSet (name : string)
| ListStackSetOperations (name : string)
| CreateStackInstances (req : create_request)
| TimeSleep (seconds : Z)
| SnsPublish (TopicArn Message : string)
| ListStackInstances (name account region : string)
| ListStackSetInstance (NextToken : string)
| RequestsPost (url : string) (headers : list (string * string)) (data : string).

Inductive level : Type := LvInfo | LvWarning | LvError.

(** One constructor per [logger] statement of the file, with the values the
    statement formats. *)
Inductive log_msg : Type :=
| MsgLambdaHandlerCalled
| MsgEventDump (e : lambda_event)
| MsgEventNotProcessed
| MsgHandlerError (e : exn)
| MsgMessageProcessingCalled
| MsgLifecycleCalled
| MsgProcessingLifecycle (account_id region : string)
| MsgCreateNewInstance (name account_id region : string)
| MsgInstanceAlreadyExists (name account_id region : string)
| MsgInvalidEventState (e : lambda_event)
| MsgStackSetProcessingCalled
| MsgUnableToGetToken
| MsgProcessingStackInstances (name : string)
| MsgTargetAccounts (l : list string)
| MsgTargetRegions (l : list string)
| MsgInstanceCreated (response : string)
| MsgOperationsStillRunning
| MsgSleepAndWait
| MsgRequeued (response : string)
| MsgFailedToSendQueue (e : exn)
| MsgExceptionGettingStackSet (e : exn)
| MsgListCalled
| MsgTargetSession
| MsgStackSetResult (r : instances_page)
| MsgListError (e : exn)
| MsgGetAccessTokenCalled
| MsgSecretStringNotFound (secret_id : string)
| MsgGetAccessTokenError (e : exn)
| MsgHoneycombCalled
| MsgGeneratePayload (payload : string)
| MsgHoneycombResponse (resp : string)
| MsgHoneycombError (e : exn).

Inductive event : Type :=
| Call (c : call)
| Log (lvl : level) (m : log_msg).

Definition trace : Type := list event.

(** The outside calls of a trace, in order. *)
Fixpoint calls_of (t : trace) : list call :=
  match t with
  | [] => []
  | Call c :: r => c :: calls_of r
  | Log _ _ :: r => calls_of r
  end.

(** ** The outside world *)

(** Each service answers from the list of calls made before the present
    one, most recent first.  [json_loads], [json_loads_secret] and [json_dumps] are the pure
    [json] functions at the types the code uses them.  The two [option]
    fields are attribute look-ups on boto3 objects whose names do not
    appear in boto3's documentation: [None] means the look-up raises
    [AttributeError]. *)
Record World : Type := mkWorld {
  get_secret_value : list call -> string -> exn + option string;
  json_loads_secret : string -> exn + list (string * option string);
  describe_stack_set : list call -> string -> exn + unit;
  list_stack_set_operations : list call -> string -> list (exn + operations_page);
  create_stack_instances : list call -> create_request -> exn + string;
  sns_publish : list call -> string -> string -> exn + string;
  list_stack_instances :
    list call -> string -> string -> string -> exn + instances_page;
  list_stack_set_instance : option (list call -> string -> exn + instances_page);
  stack_setNotFoundException : option (exn -> bool);
  requests_post : list call -> string -> string -> exn + string;
  json_dumps : batch -> string;
  json_loads : string -> exn + batch
}.

(** ** The monad *)

Inductive outcome (A : Type) : Type :=
| Returned (a : A)
| Raised (e : exn)
| OutOfFuel.

Arguments Returned {A} a.
Arguments Raised {A} e.
Arguments OutOfFuel {A}.

(** The calls made so far, most recent first. *)
Definition history : Type := list call.

(** The history after the events [t] happened on top of [hc]. *)
Definition push (t : trace) (hc : history) : history :=
  rev_append (calls_of t) hc.

(** A computation reads the history and gives its outcome together with
    the events it adds, oldest first. *)
Definition M (A : Type) : Type := history -> outcome A * trace.

Definition ret {A} (a : A) : M A := fun _ => (Returned a, []).

Definition raise {A} (e : exn) : M A := fun _ => (Raised e, []).

Definition out_of_fuel {A} : M A := fun _ => (OutOfFuel, []).

Definition bind {A B} (m : M A) (f : A -> M B) : M B :=
  fun hc =>
    match m hc with
    | (Returned a, t1) => let '(o, t2) := f a (push t1 hc) in (o, t1 ++ t2)
    | (Raised e, t1) => (Raised e, t1)
    | (OutOfFuel, t1) => (OutOfFuel, t1)
    end.

Declare Scope monad_scope.
Delimit Scope monad_scope with monad.
Notation "x <- c1 ;; c2" := (bind c1 (fun x => c2))
  (at level 61, c1 at next level, right associativity) : monad_scope.
Notation "c1 ;; c2" := (bind c1 (fun _ => c2))
  (at level 61, right associativity) : monad_scope.
Local Open Scope monad_scope.

(** [try: m except Exception as e: handler e]. *)
Definition try_except {A} (m : M A) (handler : exn -> M A) : M A :=
  fun hc =>
    match m hc with
    | (Raised e, t1) => let '(o, t2) := handler e (push t1 hc) in (o, t1 ++ t2)
    | r => r
    end.

(** [try: m except <cls> as e: handler e], where the expression [<cls>] is
    an attribute look-up [attr] evaluated only once something was raised. *)
Definition try_except_class {A} (cls : option (exn -> bool)) (attr : string)
    (m : M A) (handler : exn -> M A) : M A :=
  try_except m (fun e =>
    match cls with
    | None => raise (AttributeError attr)
    | Some isinstance => if isinstance e then handler e else raise e
    end).

Definition log (lvl : level) (m : log_msg) : M unit :=
  fun _ => (Returned tt, [Log lvl m]).

(** An outside call: the event is recorded, the world answers. *)
Definition invoke {A} (c : call) (answer : history -> exn + A) : M A :=
  fun hc =>
    (match answer hc with
     | inl e => Raised e
     | inr a => Returned a
     end, [Call c]).

(** Reading something that depends on the calls made so far. *)
Definition observe {A} (f : history -> A) : M A :=
  fun hc => (Returned (f hc), []).

Definition lift {A} (r : exn + A) : M A :=
  match r with
  | inl e => raise e
  | inr a => ret a
  end.

(** [for x in l: body x]. *)
Fixpoint for_each {A} (l : list A) (body : A -> M unit) : M unit :=
  match l with
  | [] => ret tt
  | x :: r => body x ;; for_each r body
  end.

(** [d[key]] on a dict with string keys. *)
Fixpoint dict_get {V} (key : string) (d : list (string * V)) : option V :=
  match d with
  | [] => None
  | (k, v) :: r => if String.eqb key k then Some v else dict_get key r
  end.

Definition subscript {V} (d : list (string * V)) (key : string) : M V :=
  match dict_get key d with
  | Some v => ret v
  | None => raise (KeyError key)
  end.

(** [os.environ[key]]. *)
Definition os_environ (env : environ) (key : string) : M string :=
  match env key with
  | Some v => ret v
  | None => raise (KeyError key)
  end.

(** ** The program *)

Definition CONFIG_NAME_PREFIX : string := "Lacework-Control-Tower-Config-Member-".

(** [lacework_url.split('.')[0]]: the text before the first dot. *)
Fixpoint get_account_from_url (lacework_url : string) : string :=
  match lacework_url with
  | EmptyString => EmptyString
  | String c rest =>
      if Ascii.eqb c "."%char then EmptyString
      else String c (get_account_from_url rest)
  end.

Definition nl : string := String (ascii_of_nat 10) EmptyString.
Definition dq : string := String (ascii_of_nat 34) EmptyString.
Definition quoted (s : string) : string := (dq ++ s ++ dq)%string.

(** One ["key": "value",] line of the payload template. *)
Definition payload_line (key value : string) : string :=
  String.concat EmptyString
    ["            "; quoted key; ": "; quoted value; ","; nl].

(** The [.format]-ed triple-quoted template of [send_honeycomb_event]. *)
Definition honeycomb_payload (account subaccount event_name eventdata : string)
  : string :=
  String.concat EmptyString
    [ nl; "        {"; nl;
      payload_line "account" account;
      payload_line "sub-account" subaccount;
      payload_line "tech-partner" "AWS";
      payload_line "integration-name" "lacework-aws-control-tower-cloudformation";
      payload_line "version" "$BUILD";
      payload_line "service" "AWS Control Tower";
      payload_line "install-method" "cloudformation";
      payload_line "function" "account.py";
      payload_line "event" event_name;
      "            "; quoted "event-data"; ": "; eventdata; nl;
      "        }"; nl; "        " ].

Definition honeycomb_url : string := "https://api.honeycomb.io/1/events/$DATASET".

Definition honeycomb_headers : list (string * string) :=
  [ ("X-Honeycomb-Team", "$HONEY_KEY"); ("content-type", "application/json") ].

(** Default values of the keyword parameters of [send_honeycomb_event]. *)
Definition default_subaccount : string := "000000".
Definition default_eventdata : string := "{}".

Definition send_honeycomb_event (w : World)
    (account event_name subaccount eventdata : string) : M unit :=
  log LvInfo MsgHoneycombCalled ;;
  try_except
    (let payload := honeycomb_payload account subaccount event_name eventdata in
     log LvInfo (MsgGeneratePayload payload) ;;
     resp <- invoke (RequestsPost honeycomb_url honeycomb_headers payload)
               (fun h => requests_post w h honeycomb_url payload) ;;
     log LvInfo (MsgHoneycombResponse resp))
    (fun e => log LvWarning (MsgHoneycombError e)).

(** [None] is Python's [None]; [Some tok] is the token. *)
Definition get_access_token (w : World) (lacework_api_credentials : string)
  : M (option string) :=
  log LvInfo MsgGetAccessTokenCalled ;;
  try_except
    (secret_response <-
       invoke (GetSecretValue lacework_api_credentials)
         (fun h => get_secret_value w h lacework_api_credentials) ;;
     match secret_response with
     | None =>
         log LvError (MsgSecretStringNotFound lacework_api_credentials) ;;
         ret None
     | Some secret_string =>
         secret_string_dict <- lift (json_loads_secret w secret_string) ;;
         access_token <- subscript secret_string_dict "AccessToken" ;;
         ret access_token
     end)
    (fun e => log LvError (MsgGetAccessTokenError e) ;; ret None).

(** [cfn_client.list_stack_set_instance(NextToken=token)]. *)
Definition call_list_stack_set_instance (w : World) (token : string)
  : M instances_page :=
  match list_stack_set_instance w with
  | None => raise (AttributeError "list_stack_set_instance")
  | Some f => invoke (ListStackSetInstance token) (fun h => f h token)
  end.

(** The [while "NextToken" in stack_set_result] loop.  [fuel] bounds the
    number of iterations. *)
Fixpoint drain_next_token (w : World) (fuel : nat)
    (stack_set_result : instances_page) (stack_set_list : list instance_item)
  : M (list instance_item) :=
  match inst_NextToken stack_set_result with
  | None => ret stack_set_list
  | Some token =>
      match fuel with
      | O => out_of_fuel
      | S fuel' =>
          stack_set_result' <- call_list_stack_set_instance w token ;;
          summaries <- match inst_Summaries stack_set_result' with
                       | Some l => ret l
                       | None => raise (KeyError "Summaries")
                       end ;;
          drain_next_token w fuel' stack_set_result'
            (stack_set_list ++ [Page summaries])
      end
  end.

Definition list_stack_instance_by_account_region (w : World) (fuel : nat)
    (config_stack_set_name account_id region : string) : M locator_result :=
  log LvInfo MsgListCalled ;;
  log LvInfo MsgTargetSession ;;
  try_except
    (stack_set_result <-
       invoke (ListStackInstances config_stack_set_name account_id region)
         (fun h => list_stack_instances w h config_stack_set_name account_id region) ;;
     log LvInfo (MsgStackSetResult stack_set_result) ;;
     match inst_Summaries stack_set_result with
     | Some summaries =>
         stack_set_list <-
           drain_next_token w fuel stack_set_result (map Summary summaries) ;;
         ret (RList stack_set_list)
     | None => ret RFalse
     end)
    (fun e => log LvError (MsgListError e) ;; ret RFalse).

(** [operation['Status'] in ("RUNNING", "STOPPING")]. *)
Definition status_busy (s : string) : bool :=
  String.eqb s "RUNNING" || String.eqb s "STOPPING".

(** The inner [for operation in page['Summaries']] with its [break]. *)
Fixpoint scan_operations (ops : list operation) (stack_operations : bool) : bool :=
  match ops with
  | [] => stack_operations
  | operation :: rest =>
      if status_busy (Status operation) then false
      else scan_operations rest stack_operations
  end.

(** The outer [for page in stack_set_iterator]: the paginator fetches a page
    only when the loop asks for it. *)
Fixpoint scan_pages (config_stack_set_name : string)
    (pages : list (exn + operations_page)) (stack_operations : bool) : M bool :=
  match pages with
  | [] => ret stack_operations
  | r :: rest =>
      page <- invoke (ListStackSetOperations config_stack_set_name) (fun _ => r) ;;
      match op_Summaries page with
      | Some summaries =>
          let stack_operations := scan_operations summaries stack_operations in
          if negb stack_operations then ret stack_operations
          else scan_pages config_stack_set_name rest stack_operations
      | None => scan_pages config_stack_set_name rest stack_operations
      end
  end.

Definition create_request_for (config_stack_set_name : string)
    (param_accounts param_regions : list string) (access_token : string)
  : create_request :=
  {| StackSetName := config_stack_set_name;
     Accounts := param_accounts;
     Regions := param_regions;
     ParameterOverrides :=
       [ {| ParameterKey := "AccessToken";
            ParameterValue := access_token;
            UsePreviousValue := false;
            ResolvedValue := "string" |} ];
     OperationPreferences :=
       {| RegionConcurrencyType := "PARALLEL";
          FailureToleranceCount := 999 |} |}.

(** The body of [for config_stack_set_name, params in messages.items()]. *)
Definition process_entry (w : World) (lacework_account_sns access_token : string)
    (messages : batch) (item : string * params) : M unit :=
  let '(config_stack_set_name, params) := item in
  log LvInfo (MsgProcessingStackInstances config_stack_set_name) ;;
  let param_accounts := target_accounts params in
  let param_regions := target_regions params in
  log LvInfo (MsgTargetAccounts param_accounts) ;;
  log LvInfo (MsgTargetRegions param_regions) ;;
  try_except_class (stack_setNotFoundException w) "stack_setNotFoundException"
    (invoke (DescribeStackSet config_stack_set_name)
       (fun h => describe_stack_set w h config_stack_set_name) ;;
     pages <- observe (fun h => list_stack_set_operations w h config_stack_set_name) ;;
     stack_operations <- scan_pages config_stack_set_name pages true ;;
     if stack_operations then
       let req := create_request_for config_stack_set_name
                    param_accounts param_regions access_token in
       response <- invoke (CreateStackInstances req)
                     (fun h => create_stack_instances w h req) ;;
       log LvInfo (MsgInstanceCreated response)
     else
       log LvWarning MsgOperationsStillRunning ;;
       entry <- subscript messages config_stack_set_name ;;
       let message_body := [(config_stack_set_name, entry)] in
       try_except
         (log LvInfo MsgSleepAndWait ;;
          invoke (TimeSleep 20) (fun _ => inr tt) ;;
          sns_response <-
            invoke (SnsPublish lacework_account_sns (json_dumps w message_body))
              (fun h => sns_publish w h lacework_account_sns
                          (json_dumps w message_body)) ;;
          log LvInfo (MsgRequeued sns_response))
         (fun sns_exception => log LvError (MsgFailedToSendQueue sns_exception)))
    (fun describe_exception =>
       log LvError (MsgExceptionGettingStackSet describe_exception) ;;
       raise describe_exception).

Definition cfn_stack_set_processing (w : World) (env : environ)
    (messages : batch) : M unit :=
  log LvInfo MsgStackSetProcessingCalled ;;
  lacework_account_sns <- os_environ env "lacework_account_sns" ;;
  lacework_api_credentials <- os_environ env "lacework_api_credentials" ;;
  access_token <- get_access_token w lacework_api_credentials ;;
  match access_token with
  | None => log LvError MsgUnableToGetToken ;; ret tt
  | Some access_token =>
      for_each messages (process_entry w lacework_account_sns access_token messages)
  end.

(** [len(x)] where [x] is [False] or a list. *)
Definition py_len (x : locator_result) : M nat :=
  match x with
  | RFalse => raise (TypeError "object of type 'bool' has no len()")
  | RList l => ret (List.length l)
  end.

Definition lifecycle_eventbridge_processing (w : World) (env : environ)
    (fuel : nat) (ev : lambda_event) : M unit :=
  log LvInfo MsgLifecycleCalled ;;
  log LvInfo (MsgEventDump ev) ;;
  d <- match detail ev with
       | Some d => ret d
       | None => raise (KeyError "detail")
       end ;;
  if String.eqb (state (createManagedAccountStatus d)) "SUCCEEDED" then
    let account_id := accountId (createManagedAccountStatus d) in
    let region := awsRegion d in
    lacework_url <- os_environ env "lacework_url" ;;
    let lacework_account_name := get_account_from_url lacework_url in
    lacework_sub_account_name <- os_environ env "lacework_sub_account_name" ;;
    send_honeycomb_event w lacework_account_name "add account"
      lacework_sub_account_name default_eventdata ;;
    let config_stack_set_name :=
      (CONFIG_NAME_PREFIX ++
         (if String.eqb lacework_sub_account_name EmptyString
          then lacework_account_name else lacework_sub_account_name))%string in
    stack_set_instances <-
      list_stack_instance_by_account_region w fuel config_stack_set_name
        account_id region ;;
    log LvInfo (MsgProcessingLifecycle account_id region) ;;
    n <- py_len stack_set_instances ;;
    if Nat.eqb n 0 then
      log LvInfo (MsgCreateNewInstance config_stack_set_name account_id region) ;;
      let message_body :=
        [(config_stack_set_name,
          {| target_accounts := [account_id]; target_regions := [region] |})] in
      cfn_stack_set_processing w env message_body
    else
      n' <- py_len stack_set_instances ;;
      if Nat.ltb 0 n' then
        log LvInfo (MsgInstanceAlreadyExists config_stack_set_name account_id region)
      else ret tt
  else
    log LvError (MsgInvalidEventState ev).

Definition stack_set_sns_processing (w : World) (env : environ)
    (messages : list sns_record) : M unit :=
  log LvInfo MsgMessageProcessingCalled ;;
  for_each messages (fun message =>
    payload <- lift (json_loads w (Sns_Message message)) ;;
    cfn_stack_set_processing w env payload).

Definition lambda_handler (w : World) (env : environ) (fuel : nat)
    (ev : lambda_event) : M unit :=
  log LvInfo MsgLambdaHandlerCalled ;;
  log LvInfo (MsgEventDump ev) ;;
  try_except
    (match Records ev with
     | Some records => stack_set_sns_processing w env records
     | None =>
         match detail ev with
         | Some d =>
             if String.eqb (eventName d) "CreateManagedAccount"
             then lifecycle_eventbridge_processing w env fuel ev
             else log LvInfo MsgEventNotProcessed
         | None => log LvInfo MsgEventNotProcessed
         end
     end)
    (fun e => log LvError (MsgHandlerError e)).

(** ** Reading a trace *)

Definition is_create (c : call) : bool :=
  match c with CreateStackInstances _ => true | _ => false end.

Definition is_publish (c : call) : bool :=
  match c with SnsPublish _ _ => true | _ => false end.

Definition is_describe (c : call) : bool :=
  match c with DescribeStackSet _ => true | _ => false end.

Definition is_list_operations (c : call) : bool :=
  match c with ListStackSetOperations _ => true | _ => false end.

Definition is_telemetry (c : call) : bool :=
  match c with RequestsPost _ _ _ => true | _ => false end.

(** The stack set a CloudFormation call of the orchestrator names. *)
Definition stack_set_of (c : call) : option string :=
  match c with
  | DescribeStackSet n | ListStackSetOperations n => Some n
  | CreateStackInstances r => Some (StackSetName r)
  | _ => None
  end.

(** The [create_stack_instances] requests of a trace, in order. *)
Definition created (t : trace) : list call := filter is_create (calls_of t).

(** Those that name the stack set [name]. *)
Definition created_for (name : string) (t : trace) : list call :=
  filter (fun c => match stack_set_of c with
                   | Some n => String.eqb n name
                   | None => false
                   end) (created t).

(** The [sns.publish] calls of a trace, in order. *)
Definition published (t : trace) : list call := filter is_publish (calls_of t).

(** The telemetry posts of a trace. *)
Definition telemetry (t : trace) : list call := filter is_telemetry (calls_of t).

(** The orchestrator announces itself with its first log line, so the
    number of these lines is the number of times it was entered. *)
Definition is_submission (e : event) : bool :=
  match e with
  | Log LvInfo MsgStackSetProcessingCalled => true
  | _ => false
  end.

Definition submissions (t : trace) : nat := List.length (filter is_submission t).

(** Pages the paginator hands over before it fails. *)
Fixpoint yielded (pages : list (exn + operations_page)) : list operations_page :=
  match pages with
  | inr p :: rest => p :: yielded rest
  | _ => []
  end.

Definition page_busy (p : operations_page) : bool :=
  match op_Summaries p with
  | Some ops => existsb (fun o => status_busy (Status o)) ops
  | None => false
  end.

(** The listing shows an operation that is RUNNING or STOPPING. *)
Definition listing_busy (pages : list (exn + operations_page)) : bool :=
  existsb page_busy (yielded pages).

(** The listing comes through whole and shows no such operation. *)
Definition listing_idle (pages : list (exn + operations_page)) : bool :=
  forallb (fun r => match r with
                    | inr p => negb (page_busy p)
                    | inl _ => false
                    end) pages.

(** A string that holds a dot. *)
Fixpoint has_dot (s : string) : bool :=
  match s with
  | EmptyString => false
  | String c rest => Ascii.eqb c "."%char || has_dot rest
  end.

Definition is_secret_fetch (c : call) : bool :=
  match c with GetSecretValue _ => true | _ => false end.

Definition is_sleep (c : call) : bool :=
  match c with TimeSleep _ => true | _ => false end.

(** ** Shapes of runs *)

(** [k] page fetches of the operations listing of [n]. *)
Definition list_operations_calls (n : string) (k : nat) : trace :=
  repeat (Call (ListStackSetOperations n)) k.

(** What every entry starts with: three log lines and the describe call. *)
Definition entry_prefix (n : string) (p : params) : trace :=
  [ Log LvInfo (MsgProcessingStackInstances n);
    Log LvInfo (MsgTargetAccounts (target_accounts p));
    Log LvInfo (MsgTargetRegions (target_regions p));
    Call (DescribeStackSet n) ].

(** The calls an entry can make, whatever the world answers. *)
Inductive entry_calls (sns : string) (n : string) : list call -> Prop :=
| entry_calls_listing k :
    entry_calls sns n (DescribeStackSet n :: repeat (ListStackSetOperations n) k)
| entry_calls_create k req :
    StackSetName req = n ->
    entry_calls sns n
      (DescribeStackSet n :: repeat (ListStackSetOperations n) k
         ++ [CreateStackInstances req])
| entry_calls_requeue k message :
    entry_calls sns n
      (DescribeStackSet n :: repeat (ListStackSetOperations n) k
         ++ [TimeSleep 20; SnsPublish sns message]).

(** The listing comes through without an error. *)
Definition listing_complete (pages : list (exn + operations_page)) : Prop :=
  forall r, In r pages -> exists page, r = inr page.

(** The continuation fetches of the locator. *)
Definition continuation_calls (tokens : list string) : trace :=
  map (fun token => Call (ListStackSetInstance token)) tokens.

(** The stack-set name the lifecycle path derives from the settings. *)
Definition derived_stack_set_name (url sub : string) : string :=
  (CONFIG_NAME_PREFIX ++
     (if String.eqb sub EmptyString then get_account_from_url url else sub))%string.

(** The telemetry post the lifecycle path makes. *)
Definition telemetry_post (url sub : string) : call :=
  RequestsPost honeycomb_url honeycomb_headers
    (honeycomb_payload (get_account_from_url url) sub "add account"
       default_eventdata).

(** The work item the lifecycle path builds. *)
Definition lifecycle_work_item (url sub account region : string) : batch :=
  [(derived_stack_set_name url sub,
    {| target_accounts := [account]; target_regions := [region] |})].

(** The world [w] with another answer to the telemetry post. *)
Definition with_requests_post (w : World)
    (answer : history -> string -> string -> exn + string) : World :=
  {| get_secret_value := get_secret_value w;
     json_loads_secret := json_loads_secret w;
     describe_stack_set := describe_stack_set w;
     list_stack_set_operations := list_stack_set_operations w;
     create_stack_instances := create_stack_instances w;
     sns_publish := sns_publish w;
     list_stack_instances := list_stack_instances w;
     list_stack_set_instance := list_stack_set_instance w;
     stack_setNotFoundException := stack_setNotFoundException w;
     requests_post := answer;
     json_dumps := json_dumps w;
     json_loads := json_loads w |}.

(** How an entry can end, with the calls it has made by then: the describe
    call, some page fetches, and then nothing more (an exception came
    first), the create call, or the sleep and the publish. *)
Inductive entry_run (w : World) (sns tok : string) (messages : batch)
    (n : string) (p : params) : outcome unit -> list call -> Prop :=
| entry_run_raised k e :
    entry_run w sns tok messages n p (Raised e)
      (DescribeStackSet n :: repeat (ListStackSetOperations n) k)
| entry_run_created k :
    entry_run w sns tok messages n p (Returned tt)
      (DescribeStackSet n :: repeat (ListStackSetOperations n) k
         ++ [CreateStackInstances
               (create_request_for n (target_accounts p) (target_regions p) tok)])
| entry_run_create_failed k e :
    entry_run w sns tok messages n p (Raised e)
      (DescribeStackSet n :: repeat (ListStackSetOperations n) k
         ++ [CreateStackInstances
               (create_request_for n (target_accounts p) (target_regions p) tok)])
| entry_run_requeued k entry :
    dict_get n messages = Some entry ->
    entry_run w sns tok messages n p (Returned tt)
      (DescribeStackSet n :: repeat (ListStackSetOperations n) k
         ++ [TimeSleep 20; SnsPublish sns (json_dumps w [(n, entry)])]).

(** A call the orchestrator may make for the batch [messages] with the
    token [tok]: every one is about an entry of the batch. *)
Definition batch_call (w : World) (sns tok : string) (messages : batch)
    (c : call) : Prop :=
  exists n p,
    In (n, p) messages
    /\ (c = DescribeStackSet n
        \/ c = ListStackSetOperations n
        \/ c = CreateStackInstances
                 (create_request_for n (target_accounts p) (target_regions p) tok)
        \/ c = TimeSleep 20
        \/ exists entry, In (n, entry) messages
                         /\ c = SnsPublish sns (json_dumps w [(n, entry)])).

(** ** Sample worlds *)

Module Sample.

Definition dumps_list (l : list string) : string :=
  ("[" ++ String.concat ", " (map quoted l) ++ "]")%string.

Definition dumps_params (p : params) : string :=
  ("{" ++ quoted "target_accounts" ++ ": " ++ dumps_list (target_accounts p)
     ++ ", " ++ quoted "target_regions" ++ ": " ++ dumps_list (target_regions p)
     ++ "}")%string.

(** [json.dumps] on a message body. *)
Definition dumps (b : batch) : string :=
  ("{" ++ String.concat ", "
            (map (fun kv => quoted (fst kv) ++ ": " ++ dumps_params (snd kv)) b)
     ++ "}")%string.

Definition one_target : params :=
  {| target_accounts := ["111111111111"]; target_regions := ["us-east-1"] |}.

Definition two_targets : params :=
  {| target_accounts := ["222222222222"; "333333333333"];
     target_regions := ["us-east-1"; "eu-west-1"] |}.

Definition acme : string := "Lacework-Control-Tower-Config-Member-acme".
Definition busy_set : string := "Lacework-Control-Tower-Config-Member-busy".
Definition missing_set : string := "Lacework-Control-Tower-Config-Member-gone".

Definition other_set : string := "Lacework-Control-Tower-Config-Member-other".

Definition idle_page : operations_page :=
  {| op_Summaries := Some [ {| OperationId := "op-1"; Status := "SUCCEEDED" |} ] |}.

Definition busy_page : operations_page :=
  {| op_Summaries := Some [ {| OperationId := "op-1"; Status := "SUCCEEDED" |};
                            {| OperationId := "op-2"; Status := "RUNNING" |} ] |}.

Definition an_instance : instance_summary :=
  {| si_Account := "111111111111"; si_Region := "us-east-1";
     si_Status := "CURRENT" |}.

(** The account decides what [list_stack_instances] says: one instance
    for 111111111111, a first page with a continuation token for
    444444444444, a throttling error for 333333333333, nothing otherwise. *)
Definition sample_instances (account : string) : exn + instances_page :=
  if String.eqb account "111111111111" then
    inr {| inst_Summaries := Some [an_instance]; inst_NextToken := None |}
  else if String.eqb account "444444444444" then
    inr {| inst_Summaries := Some [an_instance]; inst_NextToken := Some "t1" |}
  else if String.eqb account "333333333333" then
    inl (ClientError "Throttling")
  else inr {| inst_Summaries := Some []; inst_NextToken := None |}.

(** A world as boto3 presents it: neither [list_stack_set_instance] nor
    [exceptions.stack_setNotFoundException] exists. *)
Definition world : World :=
  {| get_secret_value := fun _ _ => inr (Some "secret");
     json_loads_secret := fun _ => inr [("AccessToken", Some "tok")];
     describe_stack_set := fun _ n =>
       if String.eqb n missing_set
       then inl (ClientError "StackSetNotFoundException") else inr tt;
     list_stack_set_operations := fun _ n =>
       if String.eqb n busy_set then [inr idle_page; inr busy_page; inr idle_page]
       else [inr idle_page];
     create_stack_instances := fun _ _ => inr "op-3";
     sns_publish := fun _ _ _ => inr "message-1";
     list_stack_instances := fun _ _ account _ => sample_instances account;
     list_stack_set_instance := None;
     stack_setNotFoundException := None;
     requests_post := fun _ _ _ => inr "200";
     json_dumps := dumps;
     json_loads := fun s =>
       if String.eqb s (dumps [(acme, one_target)])
       then inr [(acme, one_target)] else inl (OtherError "JSONDecodeError") |}.

(** The same world with a client that does offer both attributes. *)
Definition lenient_world : World :=
  {| get_secret_value := get_secret_value world;
     json_loads_secret := json_loads_secret world;
     describe_stack_set := describe_stack_set world;
     list_stack_set_operations := list_stack_set_operations world;
     create_stack_instances := create_stack_instances world;
     sns_publish := sns_publish world;
     list_stack_instances := list_stack_instances world;
     list_stack_set_instance := Some (fun _ _ =>
       inr {| inst_Summaries := Some [an_instance]; inst_NextToken := None |});
     stack_setNotFoundException := Some (fun e =>
       match e with
       | ClientError code => String.eqb code "StackSetNotFoundException"
       | _ => false
       end);
     requests_post := requests_post world;
     json_dumps := json_dumps world;
     json_loads := json_loads world |}.

(** The same world with an empty secret. *)
Definition world_without_secret : World :=
  {| get_secret_value := fun _ _ => inr None;
     json_loads_secret := json_loads_secret world;
     describe_stack_set := describe_stack_set world;
     list_stack_set_operations := list_stack_set_operations world;
     create_stack_instances := create_stack_instances world;
     sns_publish := sns_publish world;
     list_stack_instances := list_stack_instances world;
     list_stack_set_instance := list_stack_set_instance world;
     stack_setNotFoundException := stack_setNotFoundException world;
     requests_post := requests_post world;
     json_dumps := json_dumps world;
     json_loads := json_loads world |}.

(** A world where every stack set exists and the topic refuses every
    publish. *)
Definition steady_world : World :=
  {| get_secret_value := get_secret_value world;
     json_loads_secret := json_loads_secret world;
     describe_stack_set := fun _ _ => inr tt;
     list_stack_set_operations := list_stack_set_operations world;
     create_stack_instances := create_stack_instances world;
     sns_publish := fun _ _ _ => inl (ClientError "NotFound");
     list_stack_instances := list_stack_instances world;
     list_stack_set_instance := list_stack_set_instance world;
     stack_setNotFoundException := stack_setNotFoundException world;
     requests_post := requests_post world;
     json_dumps := json_dumps world;
     json_loads := json_loads world |}.

(** A world where every stack set exists and no operation runs. *)
Definition idle_world : World :=
  {| get_secret_value := get_secret_value world;
     json_loads_secret := json_loads_secret world;
     describe_stack_set := fun _ _ => inr tt;
     list_stack_set_operations := fun _ _ => [inr idle_page];
     create_stack_instances := create_stack_instances world;
     sns_publish := sns_publish world;
     list_stack_instances := list_stack_instances world;
     list_stack_set_instance := list_stack_set_instance world;
     stack_setNotFoundException := stack_setNotFoundException world;
     requests_post := requests_post world;
     json_dumps := json_dumps world;
     json_loads := json_loads world |}.

(** A world whose listing of [acme] fails on its second page, whose create
    call is refused, and whose [json.loads] reads back the re-queued body
    of the busy stack set. *)
Definition rough_world : World :=
  {| get_secret_value := get_secret_value world;
     json_loads_secret := json_loads_secret world;
     describe_stack_set := describe_stack_set world;
     list_stack_set_operations := fun _ n =>
       if String.eqb n acme
       then [inr idle_page; inl (ClientError "Throttling"); inr busy_page]
       else list_stack_set_operations world [] n;
     create_stack_instances := fun _ _ =>
       inl (ClientError "OperationInProgressException");
     sns_publish := sns_publish world;
     list_stack_instances := list_stack_instances world;
     list_stack_set_instance := list_stack_set_instance world;
     stack_setNotFoundException := stack_setNotFoundException world;
     requests_post := fun _ _ _ => inl (OtherError "ConnectionError");
     json_dumps := json_dumps world;
     json_loads := fun s =>
       if String.eqb s (dumps [(busy_set, one_target)])
       then inr [(busy_set, one_target)] else inl (OtherError "JSONDecodeError") |}.

Definition env : environ := fun key =>
  if String.eqb key "lacework_url" then Some "acme.lacework.net"
  else if String.eqb key "lacework_sub_account_name" then Some EmptyString
  else if String.eqb key "lacework_account_sns" then Some "arn:aws:sns:topic"
  else if String.eqb key "lacework_api_credentials" then Some "LaceworkApiCredentials"
  else None.

Definition lifecycle_event (st account : string) : lambda_event :=
  {| Records := None;
     detail := Some {| eventName := "CreateManagedAccount";
                       awsRegion := "us-east-1";
                       createManagedAccountStatus :=
                         {| state := st; accountId := account |} |} |}.

End Sample.

(** ** Lists, histories and traces *)

Lemma calls_of_app (t1 t2 : trace) :
  calls_of (t1 ++ t2) = calls_of t1 ++ calls_of t2.
Proof.
  induction t1 as [|[c|lvl m] t1 IH]; simpl; congruence.
Qed.

Lemma push_app (t1 t2 : trace) (hc : history) :
  push (t1 ++ t2) hc = push t2 (push t1 hc).
Proof.
  unfold push. rewrite calls_of_app, !rev_append_rev, rev_app_distr.
  now rewrite app_assoc.
Qed.

Lemma calls_of_repeat (c : call) (k : nat) :
  calls_of (repeat (Call c) k) = repeat c k.
Proof. induction k; simpl; congruence. Qed.

Lemma created_app (t1 t2 : trace) : created (t1 ++ t2) = created t1 ++ created t2.
Proof. unfold created. now rewrite calls_of_app, filter_app. Qed.

Lemma created_for_app (n : string) (t1 t2 : trace) :
  created_for n (t1 ++ t2) = created_for n t1 ++ created_for n t2.
Proof. unfold created_for. now rewrite created_app, filter_app. Qed.

Lemma published_app (t1 t2 : trace) :
  published (t1 ++ t2) = published t1 ++ published t2.
Proof. unfold published. now rewrite calls_of_app, filter_app. Qed.

Lemma telemetry_app (t1 t2 : trace) :
  telemetry (t1 ++ t2) = telemetry t1 ++ telemetry t2.
Proof. unfold telemetry. now rewrite calls_of_app, filter_app. Qed.

Lemma submissions_app (t1 t2 : trace) :
  submissions (t1 ++ t2) = submissions t1 + submissions t2.
Proof. unfold submissions. now rewrite filter_app, length_app. Qed.

Lemma filter_none {A} (f : A -> bool) (l : list A) :
  (forall x, In x l -> f x = false) -> filter f l = [].
Proof.
  induction l as [|x l IH]; intros H; simpl; [reflexivity|].
  rewrite (H x (or_introl eq_refl)). apply IH. intros y Hy. apply H. now right.
Qed.

Lemma filter_repeat_false {A} (f : A -> bool) (x : A) (k : nat) :
  f x = false -> filter f (repeat x k) = [].
Proof.
  intros H. apply filter_none. intros y Hy.
  apply repeat_spec in Hy. now subst.
Qed.

Lemma dict_get_In {V} (key : string) (v : V) (d : list (string * V)) :
  In (key, v) d -> exists v', dict_get key d = Some v'.
Proof.
  induction d as [|[k u] d IH]; simpl; [tauto|].
  intros [H|H].
  - inversion H; subst. rewrite String.eqb_refl. eauto.
  - destruct (String.eqb key k); eauto.
Qed.

(** In a dict (no key twice) [d[key]] is the value [items()] pairs with it. *)
Lemma dict_get_NoDup {V} (key : string) (v : V) (d : list (string * V)) :
  NoDup (map fst d) -> In (key, v) d -> dict_get key d = Some v.
Proof.
  induction d as [|[k u] d IH]; simpl; [tauto|].
  intros Hnd [H|H].
  - inversion H; subst. now rewrite String.eqb_refl.
  - inversion Hnd as [|? ? Hni Hnd']; subst.
    destruct (String.eqb_spec key k) as [->|Hne].
    + exfalso. apply Hni. change k with (fst (k, v)). now apply in_map.
    + now apply IH.
Qed.

(** ** The operations listing *)

Lemma scan_operations_true (ops : list operation) :
  scan_operations ops true = negb (existsb (fun o => status_busy (Status o)) ops).
Proof.
  induction ops as [|o ops IH]; simpl; [reflexivity|].
  destruct (status_busy (Status o)); simpl; [reflexivity|exact IH].
Qed.

(** Whatever the listing holds, scanning it only fetches pages. *)
Lemma scan_pages_trace (n : string) (pages : list (exn + operations_page))
    (b : bool) (hc : history) :
  exists k, snd (scan_pages n pages b hc) = list_operations_calls n k.
Proof.
  revert b hc. induction pages as [|r pages IH]; intros b hc; simpl.
  - now exists 0.
  - unfold bind, invoke. destruct r as [e|page]; simpl.
    + now exists 1.
    + assert (Hrec : forall b' hc', exists k,
                 snd (let '(o, t2) := scan_pages n pages b' hc' in
                      (o, Call (ListStackSetOperations n) :: t2))
                 = list_operations_calls n k).
      { intros b' hc'. destruct (IH b' hc') as [k Hk].
        destruct (scan_pages n pages b' hc') as [o t2]. simpl in *.
        exists (S k). now rewrite Hk. }
      destruct (op_Summaries page) as [ops|]; [|apply Hrec].
      destruct (scan_operations ops b); simpl; [apply Hrec|now exists 1].
Qed.

(** An idle listing is read to its end and leaves the flag up. *)
Lemma scan_pages_idle (n : string) (pages : list (exn + operations_page))
    (hc : history) :
  listing_idle pages = true ->
  scan_pages n pages true hc =
    (Returned true, list_operations_calls n (List.length pages)).
Proof.
  revert hc. induction pages as [|r pages IH]; intros hc H; simpl in *.
  - reflexivity.
  - apply andb_true_iff in H as [Hr Hrest].
    destruct r as [e|page]; [discriminate|].
    unfold bind, invoke; simpl.
    unfold page_busy in Hr.
    destruct (op_Summaries page) as [ops|].
    + rewrite scan_operations_true.
      destruct (existsb _ ops); [discriminate|]. simpl.
      now rewrite IH.
    + now rewrite IH.
Qed.

(** A busy listing is read up to the page that shows the busy operation. *)
Lemma scan_pages_busy (n : string) (pages : list (exn + operations_page))
    (hc : history) :
  listing_busy pages = true ->
  exists k, scan_pages n pages true hc =
              (Returned false, list_operations_calls n (S k)).
Proof.
  revert hc. induction pages as [|r pages IH]; intros hc H.
  - discriminate.
  - destruct r as [e|page]; [discriminate|].
    unfold listing_busy in H. simpl in H.
    simpl. unfold bind, invoke; simpl.
    unfold page_busy in H.
    destruct (op_Summaries page) as [ops|].
    + rewrite scan_operations_true.
      destruct (existsb _ ops); simpl in *.
      * now exists 0.
      * destruct (IH (ListStackSetOperations n :: hc) H) as [k Hk].
        unfold push; simpl. rewrite Hk. now exists (S k).
    + simpl in H. destruct (IH (ListStackSetOperations n :: hc) H) as [k Hk].
      unfold push; simpl. rewrite Hk. now exists (S k).
Qed.

(** ** One entry of a batch *)

(** Unfolds the monad so that a straight-line piece of code computes. *)
Ltac run :=
  unfold lift, subscript, os_environ, try_except_class, try_except, bind, log,
    invoke, observe, ret, raise, out_of_fuel, push; simpl.

Lemma process_entry_idle (w : World) (sns tok : string) (messages : batch)
    (n : string) (p : params) (hc : history) :
  describe_stack_set w hc n = inr tt ->
  listing_idle (list_stack_set_operations w (DescribeStackSet n :: hc) n) = true ->
  exists o tail,
    process_entry w sns tok messages (n, p) hc =
      (o, entry_prefix n p
            ++ list_operations_calls n
                 (List.length (list_stack_set_operations w (DescribeStackSet n :: hc) n))
            ++ Call (CreateStackInstances
                       (create_request_for n (target_accounts p) (target_regions p) tok))
               :: tail)
    /\ calls_of tail = [].
Proof.
  intros Hd Hl.
  unfold process_entry. run. rewrite Hd. simpl.
  rewrite (scan_pages_idle n _ _ Hl). simpl.
  destruct (create_stack_instances w _ _) as [e|r]; simpl.
  - destruct (stack_setNotFoundException w) as [cls|]; [destruct (cls e)|];
      simpl; rewrite <- app_assoc; simpl; eexists _, _; split;
      try reflexivity; reflexivity.
  - eexists _, _; split; reflexivity.
Qed.

Lemma process_entry_busy (w : World) (sns tok : string) (messages : batch)
    (n : string) (p : params) (hc : history) :
  NoDup (map fst messages) -> In (n, p) messages ->
  describe_stack_set w hc n = inr tt ->
  listing_busy (list_stack_set_operations w (DescribeStackSet n :: hc) n) = true ->
  exists k,
    let before :=
      entry_prefix n p ++ list_operations_calls n (S k)
        ++ [Log LvWarning MsgOperationsStillRunning; Log LvInfo MsgSleepAndWait] in
    let message := json_dumps w [(n, p)] in
    process_entry w sns tok messages (n, p) hc =
      (Returned tt,
       before ++ [Call (TimeSleep 20); Call (SnsPublish sns message)]
         ++ [match sns_publish w (push (before ++ [Call (TimeSleep 20)]) hc)
                     sns message with
             | inl e => Log LvError (MsgFailedToSendQueue e)
             | inr r => Log LvInfo (MsgRequeued r)
             end]).
Proof.
  intros Hnd Hin Hd Hl.
  destruct (scan_pages_busy n _ (DescribeStackSet n :: hc) Hl) as [k Hk].
  exists k. intros before message.
  unfold process_entry. run. rewrite Hd. simpl. rewrite Hk.
  rewrite (dict_get_NoDup n p messages Hnd Hin). run.
  subst before message. unfold entry_prefix, list_operations_calls. simpl.
  rewrite !calls_of_app. simpl. rewrite !rev_append_rev, !app_nil_r. simpl.
  rewrite rev_app_distr. simpl. rewrite <- !app_assoc. simpl.
  destruct (sns_publish w _ sns _) as [e|r]; reflexivity.
Qed.

(** A failing describe call ends the entry: nothing else is called. *)
Lemma process_entry_missing (w : World) (sns tok : string) (messages : batch)
    (n : string) (p : params) (hc : history) (e : exn) :
  describe_stack_set w hc n = inl e ->
  exists e' tail,
    process_entry w sns tok messages (n, p) hc =
      (Raised e', entry_prefix n p ++ tail)
    /\ calls_of tail = []
    /\ (stack_setNotFoundException w = None ->
        e' = AttributeError "stack_setNotFoundException")
    /\ (forall cls, stack_setNotFoundException w = Some cls -> e' = e).
Proof.
  intros Hd. unfold process_entry. run. rewrite Hd. simpl.
  destruct (stack_setNotFoundException w) as [cls|]; [destruct (cls e)|];
    simpl; eexists _, _; (split; [reflexivity|]); (split; [reflexivity|]);
    split; intros; congruence.
Qed.

Ltac entry_done :=
  simpl; unfold list_operations_calls;
  rewrite ?calls_of_app, ?calls_of_repeat; simpl; rewrite ?app_nil_r;
  first [ apply entry_calls_listing
        | apply entry_calls_create; reflexivity
        | apply entry_calls_requeue ].

Lemma process_entry_calls (w : World) (sns tok : string) (messages : batch)
    (n : string) (p : params) (hc : history) :
  entry_calls sns n (calls_of (snd (process_entry w sns tok messages (n, p) hc))).
Proof.
  unfold process_entry. run.
  destruct (describe_stack_set w hc n) as [e|[]]; simpl.
  - destruct (stack_setNotFoundException w) as [cls|]; [destruct (cls e)|];
      simpl; apply (entry_calls_listing sns n 0).
  - destruct (scan_pages_trace n (list_stack_set_operations w (DescribeStackSet n :: hc) n)
                true (DescribeStackSet n :: hc)) as [k Hk].
    destruct (scan_pages n _ true (DescribeStackSet n :: hc)) as [o t1].
    simpl in Hk. subst t1.
    destruct o as [[|]|e|]; simpl.
    + destruct (create_stack_instances w _ _) as [e|r]; simpl;
        [destruct (stack_setNotFoundException w) as [cls|]; [destruct (cls e)|]|];
        entry_done.
    + destruct (dict_get n messages) as [entry|]; simpl.
      * destruct (sns_publish w _ sns _) as [e|r]; entry_done.
      * destruct (stack_setNotFoundException w) as [cls|];
          [destruct (cls (KeyError n))|]; entry_done.
    + destruct (stack_setNotFoundException w) as [cls|]; [destruct (cls e)|];
        entry_done.
    + entry_done.
Qed.


(** ** A whole batch *)

Lemma for_each_app {A} (body : A -> M unit) (pre post : list A)
    (hc : history) (t1 : trace) :
  for_each pre body hc = (Returned tt, t1) ->
  for_each (pre ++ post) body hc =
    let '(o, t2) := for_each post body (push t1 hc) in (o, t1 ++ t2).
Proof.
  revert hc t1. induction pre as [|x pre IH]; intros hc t1 H; simpl in *.
  - unfold ret in H. inversion H; subst. change (push [] hc) with hc.
    now destruct (for_each post body hc).
  - unfold bind in *. destruct (body x hc) as [[[]|e|] tx]; try discriminate.
    destruct (for_each pre body (push tx hc)) as [o t] eqn:E.
    inversion H; subst. rewrite (IH _ _ E), push_app.
    destruct (for_each post body (push t (push tx hc))) as [o2 t2].
    now rewrite app_assoc.
Qed.

(** A property of traces that holds of nothing, is kept by [++] and holds
    of every round of a loop holds of the loop. *)
Lemma for_each_trace_ind {A} (P : trace -> Prop) (body : A -> M unit)
    (l : list A) :
  P [] -> (forall t1 t2, P t1 -> P t2 -> P (t1 ++ t2)) ->
  (forall x hc, In x l -> P (snd (body x hc))) ->
  forall hc, P (snd (for_each l body hc)).
Proof.
  intros Hnil Happ. induction l as [|x l IH]; intros Hbody hc; simpl.
  - exact Hnil.
  - unfold bind. pose proof (Hbody x hc (or_introl eq_refl)) as Hx.
    destruct (body x hc) as [[[]|e|] tx]; simpl in *; try exact Hx.
    assert (Hl : P (snd (for_each l body (push tx hc)))).
    { apply IH. intros y hc' Hy. apply Hbody. now right. }
    destruct (for_each l body (push tx hc)) as [o t]. simpl in *.
    now apply Happ.
Qed.

(** Credential resolution never raises and makes the one secret call. *)
Lemma get_access_token_returns (w : World) (cred : string) (hc : history) :
  exists tok t,
    get_access_token w cred hc = (Returned tok, t)
    /\ calls_of t = [GetSecretValue cred].
Proof.
  unfold get_access_token. run.
  destruct (get_secret_value w hc cred) as [e|[s|]]; simpl; eauto.
  destruct (json_loads_secret w s) as [e|d]; simpl; eauto.
  destruct (dict_get "AccessToken" d) as [tok|]; simpl; eauto.
Qed.

Lemma cfn_resolved (w : World) (env : environ) (messages : batch)
    (hc : history) (sns cred tok : string) (t0 : trace) :
  env "lacework_account_sns" = Some sns ->
  env "lacework_api_credentials" = Some cred ->
  get_access_token w cred hc = (Returned (Some tok), t0) ->
  cfn_stack_set_processing w env messages hc =
    let '(o, t) := for_each messages (process_entry w sns tok messages)
                     (push t0 hc) in
    (o, Log LvInfo MsgStackSetProcessingCalled :: t0 ++ t).
Proof.
  intros Hs Hc Ht. unfold cfn_stack_set_processing.
  unfold os_environ, bind at 1 2 3 4, log, ret. rewrite Hs, Hc. simpl.
  change (push [] (push [] (push [Log LvInfo MsgStackSetProcessingCalled] hc)))
    with hc.
  rewrite Ht. unfold bind. simpl.
  try (destruct (for_each messages _ (push t0 hc)) as [o t]); reflexivity.
Qed.

Lemma cfn_unresolved (w : World) (env : environ) (messages : batch)
    (hc : history) (sns cred : string) (t0 : trace) :
  env "lacework_account_sns" = Some sns ->
  env "lacework_api_credentials" = Some cred ->
  get_access_token w cred hc = (Returned None, t0) ->
  cfn_stack_set_processing w env messages hc =
    (Returned tt,
     Log LvInfo MsgStackSetProcessingCalled
       :: t0 ++ [Log LvError MsgUnableToGetToken]).
Proof.
  intros Hs Hc Ht. unfold cfn_stack_set_processing.
  unfold os_environ, bind at 1 2 3 4, log, ret. rewrite Hs, Hc. simpl.
  change (push [] (push [] (push [Log LvInfo MsgStackSetProcessingCalled] hc)))
    with hc.
  rewrite Ht. unfold bind. simpl.
  try (destruct (for_each messages _ (push t0 hc)) as [o t]); reflexivity.
Qed.

Lemma for_each_cons {A} (body : A -> M unit) (x : A) (r : list A) :
  for_each (x :: r) body = (body x ;; for_each r body).
Proof. reflexivity. Qed.

Lemma created_for_list_operations (n m : string) (k : nat) :
  created_for n (list_operations_calls m k) = [].
Proof.
  unfold created_for, created, list_operations_calls.
  rewrite calls_of_repeat, filter_repeat_false; reflexivity.
Qed.

Lemma created_for_silent (n : string) (t : trace) :
  calls_of t = [] -> created_for n t = [].
Proof. intros H. unfold created_for, created. now rewrite H. Qed.

(** An entry only ever creates instances of its own stack set. *)
Lemma entry_calls_created_for_other (sns m n : string) (t : trace) :
  entry_calls sns m (calls_of t) -> m <> n -> created_for n t = [].
Proof.
  intros H Hne. unfold created_for, created.
  inversion H as [k E|k req Hreq E|k message E]; simpl;
    rewrite ?filter_app, filter_repeat_false by reflexivity; simpl;
    try reflexivity.
  rewrite Hreq. apply String.eqb_neq in Hne. now rewrite Hne.
Qed.

Lemma entry_calls_no_telemetry (sns m : string) (t : trace) :
  entry_calls sns m (calls_of t) -> telemetry t = [].
Proof.
  intros H. unfold telemetry.
  inversion H as [k E|k req Hreq E|k message E]; simpl;
    rewrite ?filter_app, filter_repeat_false by reflexivity; reflexivity.
Qed.

Lemma entries_created_for_other (w : World) (sns tok : string)
    (messages l : batch) (n : string) :
  (forall x, In x l -> fst x <> n) ->
  forall hc,
    created_for n (snd (for_each l (process_entry w sns tok messages) hc)) = [].
Proof.
  intros Hl hc. apply (for_each_trace_ind (fun t => created_for n t = [])).
  - reflexivity.
  - intros t1 t2 H1 H2. now rewrite created_for_app, H1, H2.
  - intros [m q] hc' Hx. apply (entry_calls_created_for_other sns m).
    + apply process_entry_calls.
    + exact (Hl _ Hx).
Qed.

Lemma NoDup_keys_split {V} (pre post : list (string * V)) (n : string) (v : V) :
  NoDup (map fst (pre ++ (n, v) :: post)) ->
  (forall x, In x pre -> fst x <> n) /\ (forall x, In x post -> fst x <> n).
Proof.
  rewrite map_app. simpl. intros H.
  apply NoDup_remove_2 in H.
  split; intros x Hx E; apply H, in_or_app; [left|right];
    rewrite <- E; now apply in_map.
Qed.

(** ** The claims about the orchestrator *)

(** C1 (as amended).  For every batch with a resolvable credential and for
    each entry that the loop reaches (every entry before it returned
    without raising) whose stack set exists and whose operations listing
    shows nothing RUNNING or STOPPING, the whole run issues exactly one
    [create_stack_instances] call naming that stack set; its accounts and
    regions are the entry's [target_accounts] and [target_regions], the
    resolved token is the [AccessToken] parameter override, regions run in
    PARALLEL and the failure tolerance count is 999. *)
Theorem C1_reached_idle_entry_creates_once (w : World) (env : environ)
    (messages pre post : batch) (n : string) (p : params) (hc : history)
    (sns cred tok : string) (t0 t1 : trace) :
  messages = pre ++ (n, p) :: post ->
  NoDup (map fst messages) ->
  env "lacework_account_sns" = Some sns ->
  env "lacework_api_credentials" = Some cred ->
  get_access_token w cred hc = (Returned (Some tok), t0) ->
  for_each pre (process_entry w sns tok messages) (push t0 hc) = (Returned tt, t1) ->
  describe_stack_set w (push t1 (push t0 hc)) n = inr tt ->
  listing_idle
    (list_stack_set_operations w (DescribeStackSet n :: push t1 (push t0 hc)) n)
    = true ->
  exists req,
    created_for n (snd (cfn_stack_set_processing w env messages hc))
      = [CreateStackInstances req]
    /\ StackSetName req = n
    /\ Accounts req = target_accounts p
    /\ Regions req = target_regions p
    /\ ParameterOverrides req =
         [ {| ParameterKey := "AccessToken"; ParameterValue := tok;
              UsePreviousValue := false; ResolvedValue := "string" |} ]
    /\ RegionConcurrencyType (OperationPreferences req) = "PARALLEL"
    /\ FailureToleranceCount (OperationPreferences req) = 999%Z.
Proof.
  intros Hm Hnd Hs Hc Ht Hpre Hd Hl.
  exists (create_request_for n (target_accounts p) (target_regions p) tok).
  split; [|repeat split].
  rewrite (cfn_resolved w env messages hc sns cred tok t0 Hs Hc Ht).
  destruct (get_access_token_returns w cred hc) as (tok' & t0' & Ht' & Hcalls).
  rewrite Ht in Ht'. inversion Ht'; subst tok' t0'. clear Ht'.
  assert (Hsplit := Hnd). rewrite Hm in Hsplit.
  apply NoDup_keys_split in Hsplit as [Hnpre Hnpost].
  pose proof (entries_created_for_other w sns tok messages pre n Hnpre (push t0 hc))
    as Hcpre.
  rewrite Hpre in Hcpre. simpl in Hcpre.
  rewrite Hm at 1. rewrite (for_each_app _ pre _ _ t1) by exact Hpre.
  rewrite for_each_cons. unfold bind at 1.
  destruct (process_entry_idle w sns tok messages n p _ Hd Hl)
    as (o & tail & He & Htail).
  rewrite He.
  set (t_e := entry_prefix n p ++ _) in *.
  assert (Hce : created_for n t_e =
                [CreateStackInstances
                   (create_request_for n (target_accounts p) (target_regions p) tok)]).
  { subst t_e. rewrite !created_for_app, created_for_list_operations.
    change (Call ?c :: tail) with ([Call c] ++ tail).
    rewrite created_for_app, (created_for_silent n tail Htail).
    unfold created_for, created. simpl. now rewrite String.eqb_refl. }
  assert (Ht0 : created_for n (Log LvInfo MsgStackSetProcessingCalled :: t0) = []).
  { unfold created_for, created. simpl. now rewrite Hcalls. }
  destruct o as [[]|e|].
  - pose proof (entries_created_for_other w sns tok messages post n Hnpost
                  (push t_e (push t1 (push t0 hc)))) as Hcpost.
    destruct (for_each post _ (push t_e (push t1 (push t0 hc)))) as [o2 t2].
    simpl in Hcpost. cbn [snd].
    change (Log ?a ?b :: t0 ++ ?r) with ((Log a b :: t0) ++ r).
    now rewrite !created_for_app, Ht0, Hcpre, Hce, Hcpost.
  - cbn [snd].
    change (Log ?a ?b :: t0 ++ ?r) with ((Log a b :: t0) ++ r).
    now rewrite !created_for_app, Ht0, Hcpre, Hce.
  - cbn [snd].
    change (Log ?a ?b :: t0 ++ ?r) with ((Log a b :: t0) ++ r).
    now rewrite !created_for_app, Ht0, Hcpre, Hce.
Qed.

(** The loop body on a busy entry: no [create_stack_instances] call,
    exactly one [sns.publish] of the one-key body of the entry, right after
    a [time.sleep(20)]; a failing publish is logged and the body returns. *)
Lemma busy_entry_requeues_after_sleep (w : World) (sns tok : string)
    (messages : batch) (n : string) (p : params) (hc : history) :
  NoDup (map fst messages) -> In (n, p) messages ->
  describe_stack_set w hc n = inr tt ->
  listing_busy (list_stack_set_operations w (DescribeStackSet n :: hc) n) = true ->
  let message := json_dumps w [(n, p)] in
  let '(o, t) := process_entry w sns tok messages (n, p) hc in
  o = Returned tt
  /\ created t = []
  /\ published t = [SnsPublish sns message]
  /\ exists before,
       published before = []
       /\ t = before
                ++ [ Call (TimeSleep 20); Call (SnsPublish sns message);
                     match sns_publish w (push (before ++ [Call (TimeSleep 20)]) hc)
                             sns message with
                     | inl e => Log LvError (MsgFailedToSendQueue e)
                     | inr r => Log LvInfo (MsgRequeued r)
                     end ].
Proof.
  intros Hnd Hin Hd Hl message.
  destruct (process_entry_busy w sns tok messages n p hc Hnd Hin Hd Hl) as [k Hk].
  cbv zeta in Hk. rewrite Hk. fold message.
  set (before := entry_prefix n p ++ _).
  assert (Hb : calls_of before =
               DescribeStackSet n :: repeat (ListStackSetOperations n) (S k)).
  { subst before. unfold list_operations_calls.
    rewrite !calls_of_app, calls_of_repeat. simpl. now rewrite app_nil_r. }
  assert (Hcb : created before = []).
  { unfold created. rewrite Hb. simpl.
    now rewrite filter_repeat_false. }
  assert (Hpb : published before = []).
  { unfold published. rewrite Hb. simpl.
    now rewrite filter_repeat_false. }
  split; [reflexivity|]. split; [|split].
  - rewrite created_app, Hcb. unfold created. simpl.
    now destruct (sns_publish w _ sns message).
  - rewrite published_app, Hpb. unfold published. simpl.
    now destruct (sns_publish w _ sns message).
  - exists before. split; [exact Hpb|reflexivity].
Qed.

(** C2 (as amended).  For every batch with a resolvable credential and for
    each entry that the loop reaches (every entry before it returned
    without raising) whose stack set exists and whose listing shows an
    operation that is RUNNING or STOPPING: the run issues no
    [create_stack_instances] call for that stack set; the part of the run
    that belongs to the entry holds exactly one [sns.publish], whose
    message is the dump of the one-key body made of the same stack-set name
    and the same [target_accounts] and [target_regions]; that publish comes
    right after a [time.sleep(20)]; and when the publish fails the failure
    is logged, nothing is raised, and the run goes on with the entries
    after it. *)
Theorem C2_reached_busy_entry_requeues_once (w : World) (env : environ)
    (messages pre post : batch) (n : string) (p : params) (hc : history)
    (sns cred tok : string) (t0 t1 : trace) :
  messages = pre ++ (n, p) :: post ->
  NoDup (map fst messages) ->
  env "lacework_account_sns" = Some sns ->
  env "lacework_api_credentials" = Some cred ->
  get_access_token w cred hc = (Returned (Some tok), t0) ->
  for_each pre (process_entry w sns tok messages) (push t0 hc) = (Returned tt, t1) ->
  describe_stack_set w (push t1 (push t0 hc)) n = inr tt ->
  listing_busy
    (list_stack_set_operations w (DescribeStackSet n :: push t1 (push t0 hc)) n)
    = true ->
  let message := json_dumps w [(n, p)] in
  exists before t_post o,
    let t_e :=
      before
        ++ [ Call (TimeSleep 20); Call (SnsPublish sns message);
             match sns_publish w
                     (push (before ++ [Call (TimeSleep 20)])
                        (push t1 (push t0 hc)))
                     sns message with
             | inl e => Log LvError (MsgFailedToSendQueue e)
             | inr r => Log LvInfo (MsgRequeued r)
             end ] in
    cfn_stack_set_processing w env messages hc =
      (o, Log LvInfo MsgStackSetProcessingCalled :: t0 ++ t1 ++ t_e ++ t_post)
    /\ for_each post (process_entry w sns tok messages)
         (push t_e (push t1 (push t0 hc))) = (o, t_post)
    /\ published before = []
    /\ created t_e = []
    /\ published t_e = [SnsPublish sns message]
    /\ created_for n
         (Log LvInfo MsgStackSetProcessingCalled :: t0 ++ t1 ++ t_e ++ t_post)
       = [].
Proof.
  intros Hm Hnd Hs Hc Ht Hpre Hd Hl message.
  assert (Hin : In (n, p) messages).
  { rewrite Hm. apply in_or_app. right. now left. }
  pose proof (busy_entry_requeues_after_sleep w sns tok messages n p
                (push t1 (push t0 hc)) Hnd Hin Hd Hl) as Hentry.
  cbv zeta in Hentry. fold message in Hentry.
  destruct (process_entry w sns tok messages (n, p) (push t1 (push t0 hc)))
    as [oe te] eqn:He.
  destruct Hentry as (-> & Hce & Hpe & before & Hpb & Hte).
  exists before,
    (snd (for_each post (process_entry w sns tok messages)
            (push te (push t1 (push t0 hc))))),
    (fst (for_each post (process_entry w sns tok messages)
            (push te (push t1 (push t0 hc))))).
  cbv zeta. rewrite <- Hte.
  destruct (get_access_token_returns w cred hc) as (tok' & t0' & Ht' & Hcalls).
  rewrite Ht in Ht'. inversion Ht'; subst tok' t0'. clear Ht'.
  assert (Hsplit := Hnd). rewrite Hm in Hsplit.
  apply NoDup_keys_split in Hsplit as [Hnpre Hnpost].
  pose proof (entries_created_for_other w sns tok messages pre n Hnpre (push t0 hc))
    as Hcpre.
  rewrite Hpre in Hcpre. cbn [snd] in Hcpre.
  pose proof (entries_created_for_other w sns tok messages post n Hnpost
                (push te (push t1 (push t0 hc)))) as Hcpost.
  destruct (for_each post (process_entry w sns tok messages)
              (push te (push t1 (push t0 hc)))) as [o t_post] eqn:Epost.
  cbn [fst snd] in *.
  split; [|split; [reflexivity|split; [exact Hpb|split; [exact Hce|split;
                                                          [exact Hpe|]]]]].
  - rewrite (cfn_resolved w env messages hc sns cred tok t0 Hs Hc Ht).
    rewrite Hm at 1. rewrite (for_each_app _ pre _ _ t1) by exact Hpre.
    rewrite for_each_cons. unfold bind at 1. rewrite He, Epost. reflexivity.
  - change (Log ?a ?b :: t0 ++ ?r) with ((Log a b :: t0) ++ r).
    rewrite !created_for_app, Hcpre, Hcpost.
    assert (H0 : created_for n (Log LvInfo MsgStackSetProcessingCalled :: t0) = []).
    { unfold created_for, created. simpl. now rewrite Hcalls. }
    rewrite H0. unfold created_for. now rewrite Hce.
Qed.

(** C3.  When credential resolution gives [None], the orchestrator logs the
    failure and returns without raising; the only outside call of the whole
    run is the secret fetch, so no describe, list-operations or
    create-instances call is made for any entry of the batch. *)
Theorem C3_null_credential_aborts_batch (w : World) (env : environ)
    (messages : batch) (hc : history) (sns cred : string) (t0 : trace) :
  env "lacework_account_sns" = Some sns ->
  env "lacework_api_credentials" = Some cred ->
  get_access_token w cred hc = (Returned None, t0) ->
  let '(o, t) := cfn_stack_set_processing w env messages hc in
  o = Returned tt
  /\ In (Log LvError MsgUnableToGetToken) t
  /\ calls_of t = [GetSecretValue cred]
  /\ filter is_describe (calls_of t) = []
  /\ filter is_list_operations (calls_of t) = []
  /\ filter is_create (calls_of t) = [].
Proof.
  intros Hs Hc Ht.
  rewrite (cfn_unresolved w env messages hc sns cred t0 Hs Hc Ht).
  destruct (get_access_token_returns w cred hc) as (tok & t0' & Ht' & Hcalls).
  rewrite Ht in Ht'. inversion Ht'; subst tok t0'.
  assert (Hall : calls_of (Log LvInfo MsgStackSetProcessingCalled
                             :: t0 ++ [Log LvError MsgUnableToGetToken])
                 = [GetSecretValue cred]).
  { simpl. rewrite calls_of_app, Hcalls. reflexivity. }
  split; [reflexivity|]. split.
  - right. apply in_or_app. right. now left.
  - rewrite Hall. repeat split.
Qed.

(** What happens at a reached entry whose describe call fails. *)
Lemma cfn_missing_entry (w : World) (env : environ)
    (messages pre post : batch) (n : string) (p : params) (hc : history)
    (sns cred tok : string) (t0 t1 : trace) (e : exn) :
  messages = pre ++ (n, p) :: post ->
  env "lacework_account_sns" = Some sns ->
  env "lacework_api_credentials" = Some cred ->
  get_access_token w cred hc = (Returned (Some tok), t0) ->
  for_each pre (process_entry w sns tok messages) (push t0 hc) = (Returned tt, t1) ->
  describe_stack_set w (push t1 (push t0 hc)) n = inl e ->
  exists e' tail,
    cfn_stack_set_processing w env messages hc =
      (Raised e',
       Log LvInfo MsgStackSetProcessingCalled
         :: t0 ++ t1 ++ entry_prefix n p ++ tail)
    /\ calls_of tail = [].
Proof.
  intros Hm Hs Hc Ht Hpre Hd.
  destruct (process_entry_missing w sns tok messages n p _ e Hd)
    as (e' & tail & He & Htail & _).
  exists e', tail. split; [|exact Htail].
  rewrite (cfn_resolved w env messages hc sns cred tok t0 Hs Hc Ht).
  rewrite Hm at 1. rewrite (for_each_app _ pre _ _ t1) by exact Hpre.
  rewrite for_each_cons. unfold bind at 1.
  rewrite He. reflexivity.
Qed.

(** C5 (as amended).  In a batch with a resolvable credential, when the
    describe call of a reached entry fails (its stack set does not exist),
    no publish is attempted for that entry and the exception is raised to
    the caller: the trace ends with this entry's describe call, so the
    entries before it were processed and the entries after it are not. *)
Theorem C5_missing_group_ends_the_batch (w : World) (env : environ)
    (messages pre post : batch) (n : string) (p : params) (hc : history)
    (sns cred tok : string) (t0 t1 : trace) (e : exn) :
  messages = pre ++ (n, p) :: post ->
  env "lacework_account_sns" = Some sns ->
  env "lacework_api_credentials" = Some cred ->
  get_access_token w cred hc = (Returned (Some tok), t0) ->
  for_each pre (process_entry w sns tok messages) (push t0 hc) = (Returned tt, t1) ->
  describe_stack_set w (push t1 (push t0 hc)) n = inl e ->
  exists e' t_e,
    cfn_stack_set_processing w env messages hc =
      (Raised e', Log LvInfo MsgStackSetProcessingCalled :: t0 ++ t1 ++ t_e)
    /\ calls_of t_e = [DescribeStackSet n]
    /\ published t_e = [].
Proof.
  intros Hm Hs Hc Ht Hpre Hd.
  destruct (cfn_missing_entry w env messages pre post n p hc sns cred tok t0 t1 e
              Hm Hs Hc Ht Hpre Hd) as (e' & tail & Hrun & Htail).
  exists e', (entry_prefix n p ++ tail). split; [exact Hrun|].
  assert (Hcalls : calls_of (entry_prefix n p ++ tail) = [DescribeStackSet n]).
  { rewrite calls_of_app, Htail. reflexivity. }
  split; [exact Hcalls|]. unfold published. now rewrite Hcalls.
Qed.

(** C9 (as amended).  In a batch with a resolvable credential, a reached
    busy entry makes the run call [time.sleep(20)] itself and then publish;
    the entries after it are processed from a history whose two most recent
    calls are that publish and, before it, the twenty-second sleep.  The
    publish request carries the topic and the message only. *)
Theorem C9_busy_entry_sleeps_before_the_next (w : World) (env : environ)
    (messages pre post : batch) (n : string) (p : params) (hc : history)
    (sns cred tok : string) (t0 t1 : trace) :
  messages = pre ++ (n, p) :: post ->
  NoDup (map fst messages) ->
  env "lacework_account_sns" = Some sns ->
  env "lacework_api_credentials" = Some cred ->
  get_access_token w cred hc = (Returned (Some tok), t0) ->
  for_each pre (process_entry w sns tok messages) (push t0 hc) = (Returned tt, t1) ->
  describe_stack_set w (push t1 (push t0 hc)) n = inr tt ->
  listing_busy
    (list_stack_set_operations w (DescribeStackSet n :: push t1 (push t0 hc)) n)
    = true ->
  exists t_e earlier,
    push t_e (push t1 (push t0 hc)) =
      SnsPublish sns (json_dumps w [(n, p)]) :: TimeSleep 20 :: earlier
    /\ cfn_stack_set_processing w env messages hc =
         let '(o, t_post) :=
           for_each post (process_entry w sns tok messages)
             (push t_e (push t1 (push t0 hc))) in
         (o, Log LvInfo MsgStackSetProcessingCalled :: t0 ++ t1 ++ t_e ++ t_post).
Proof.
  intros Hm Hnd Hs Hc Ht Hpre Hd Hl.
  assert (Hin : In (n, p) messages).
  { rewrite Hm. apply in_or_app. right. now left. }
  destruct (process_entry_busy w sns tok messages n p _ Hnd Hin Hd Hl) as [k Hk].
  cbv zeta in Hk.
  match type of Hk with _ = (_, ?t) => exists t end.
  eexists. split.
  - unfold push at 1. rewrite !calls_of_app. simpl.
    rewrite rev_append_rev, rev_app_distr. simpl.
    destruct (sns_publish w _ sns _); simpl; reflexivity.
  - rewrite (cfn_resolved w env messages hc sns cred tok t0 Hs Hc Ht).
    rewrite Hm at 1. rewrite (for_each_app _ pre _ _ t1) by exact Hpre.
    rewrite for_each_cons. unfold bind at 1. rewrite Hk.
    match goal with |- context [for_each post ?b ?h] =>
      destruct (for_each post b h) as [o t_post] end.
    reflexivity.
Qed.

Lemma bind_log_outcome {A} (lvl : level) (msg : log_msg) (k : M A) (hc : history) :
  fst ((log lvl msg ;; k) hc) = fst (k hc).
Proof.
  unfold bind, log. change (push [Log lvl msg] hc) with hc.
  now destruct (k hc).
Qed.

(** A handler that only logs turns every exception into a normal return. *)
Lemma try_except_log_absorbs (m : M unit) (lvl : level) (f : exn -> log_msg)
    (hc : history) (e : exn) :
  fst (try_except m (fun e' => log lvl (f e')) hc) <> Raised e.
Proof.
  unfold try_except, log. destruct (m hc) as [[a|e'|] t]; simpl; discriminate.
Qed.

Lemma lambda_handler_never_raises (w : World) (env : environ) (fuel : nat)
    (ev : lambda_event) (hc : history) (e : exn) :
  fst (lambda_handler w env fuel ev hc) <> Raised e.
Proof.
  unfold lambda_handler. rewrite !bind_log_outcome.
  apply try_except_log_absorbs.
Qed.

Lemma scan_pages_returns (n : string) (pages : list (exn + operations_page))
    (b : bool) (hc : history) :
  listing_complete pages ->
  exists b' t, scan_pages n pages b hc = (Returned b', t).
Proof.
  revert b hc. induction pages as [|r pages IH]; intros b hc H; simpl.
  - unfold ret. eauto.
  - destruct (H r (or_introl eq_refl)) as [page ->].
    assert (H' : listing_complete pages) by (intros r Hr; apply H; now right).
    unfold bind, invoke. simpl.
    assert (Hrec : forall b0, exists b' t,
              (let '(o, t2) := scan_pages n pages b0
                                 (push [Call (ListStackSetOperations n)] hc) in
               (o, Call (ListStackSetOperations n) :: t2)) = (Returned b', t)).
    { intros b0. destruct (IH b0 (push [Call (ListStackSetOperations n)] hc) H')
        as (b' & t & E). rewrite E. eauto. }
    destruct (op_Summaries page) as [ops|]; [|apply Hrec].
    destruct (scan_operations ops b); simpl; [apply Hrec|].
    unfold ret. simpl. eauto.
Qed.

(** With describe, listing and create all answering, an entry returns. *)
Lemma process_entry_returns (w : World) (sns tok : string) (messages : batch)
    (n : string) (p : params) (hc : history) :
  In (n, p) messages ->
  (forall h m, describe_stack_set w h m = inr tt) ->
  (forall h m, listing_complete (list_stack_set_operations w h m)) ->
  (forall h req, exists resp, create_stack_instances w h req = inr resp) ->
  fst (process_entry w sns tok messages (n, p) hc) = Returned tt.
Proof.
  intros Hin Hd Hl Hc. unfold process_entry. run. rewrite Hd. simpl.
  destruct (scan_pages_returns n (list_stack_set_operations w (DescribeStackSet n :: hc) n)
              true (DescribeStackSet n :: hc) (Hl _ _)) as (b & t & E).
  rewrite E. destruct b; simpl.
  - match goal with |- context [create_stack_instances w ?h ?r] =>
      destruct (Hc h r) as [resp ->] end.
    reflexivity.
  - destruct (dict_get_In n p messages Hin) as [entry ->]. simpl.
    destruct (sns_publish w _ sns _); reflexivity.
Qed.

Lemma for_each_returns {A} (body : A -> M unit) (l : list A) :
  (forall x hc, In x l -> fst (body x hc) = Returned tt) ->
  forall hc, fst (for_each l body hc) = Returned tt.
Proof.
  induction l as [|x l IH]; intros H hc; simpl; [reflexivity|].
  unfold bind. pose proof (H x hc (or_introl eq_refl)) as Hx.
  destruct (body x hc) as [o tx]. simpl in Hx. subst o.
  assert (Hl : fst (for_each l body (push tx hc)) = Returned tt).
  { apply IH. intros y hc' Hy. apply H. now right. }
  destruct (for_each l body (push tx hc)) as [o t]. exact Hl.
Qed.

(** C4 (as amended).  The orchestrator absorbs a failed credential
    resolution and a failed publish: with the two settings present it
    returns normally whenever the describe, list-operations and
    create-instances calls all answer, whatever the secret store and the
    topic do.  An exception of the describe call of a reached entry is
    raised to the caller.  It is [lambda_handler], around the orchestrator,
    that never raises. *)
Theorem C4_failures_absorbed_by_the_handler (w : World) (env : environ)
    (sns cred : string) :
  env "lacework_account_sns" = Some sns ->
  env "lacework_api_credentials" = Some cred ->
  (forall messages hc,
      (forall h m, describe_stack_set w h m = inr tt) ->
      (forall h m, listing_complete (list_stack_set_operations w h m)) ->
      (forall h req, exists resp, create_stack_instances w h req = inr resp) ->
      fst (cfn_stack_set_processing w env messages hc) = Returned tt)
  /\ (forall messages pre post n p hc tok t0 t1 e,
         messages = pre ++ (n, p) :: post ->
         get_access_token w cred hc = (Returned (Some tok), t0) ->
         for_each pre (process_entry w sns tok messages) (push t0 hc)
           = (Returned tt, t1) ->
         describe_stack_set w (push t1 (push t0 hc)) n = inl e ->
         exists e', fst (cfn_stack_set_processing w env messages hc) = Raised e')
  /\ (forall fuel ev hc e, fst (lambda_handler w env fuel ev hc) <> Raised e).
Proof.
  intros Hs Hc. split; [|split].
  - intros messages hc Hd Hl Hcr.
    destruct (get_access_token_returns w cred hc) as ([tok|] & t0 & Ht & _).
    + rewrite (cfn_resolved w env messages hc sns cred tok t0 Hs Hc Ht).
      pose proof (for_each_returns (process_entry w sns tok messages) messages)
        as Hfe.
      specialize (Hfe (fun x hc' Hx =>
        match x return In x messages -> _ with
        | (n, p) => fun Hx' =>
            process_entry_returns w sns tok messages n p hc' Hx' Hd Hl Hcr
        end Hx) (push t0 hc)).
      destruct (for_each messages _ (push t0 hc)) as [o t]. exact Hfe.
    + now rewrite (cfn_unresolved w env messages hc sns cred t0 Hs Hc Ht).
  - intros messages pre post n p hc tok t0 t1 e Hm Ht Hpre Hd.
    destruct (cfn_missing_entry w env messages pre post n p hc sns cred tok t0 t1 e
                Hm Hs Hc Ht Hpre Hd) as (e' & tail & Hrun & _).
    exists e'. now rewrite Hrun.
  - intros fuel ev hc e. apply lambda_handler_never_raises.
Qed.

(** ** The instance locator *)

Lemma drain_next_token_trace (w : World) (fuel : nat) (page : instances_page)
    (acc : list instance_item) (hc : history) :
  exists tokens,
    snd (drain_next_token w fuel page acc hc) = continuation_calls tokens.
Proof.
  revert page acc hc. induction fuel as [|fuel IH]; intros page acc hc; simpl.
  - destruct (inst_NextToken page); now exists [].
  - destruct (inst_NextToken page) as [token|]; [|now exists []].
    unfold call_list_stack_set_instance.
    destruct (list_stack_set_instance w) as [f|]; run; [|now exists []].
    destruct (f hc token) as [e|page']; simpl; [now exists [token]|].
    destruct (inst_Summaries page') as [l|]; simpl; [|now exists [token]].
    destruct (IH page' (acc ++ [Page l]) (ListStackSetInstance token :: hc))
      as [tokens Ht].
    destruct (drain_next_token w fuel page' _ _) as [o t]. simpl in *.
    exists (token :: tokens). now rewrite Ht.
Qed.

(** The loop only ever adds to the list it was given. *)
Lemma drain_next_token_extends (w : World) (fuel : nat) (page : instances_page)
    (acc : list instance_item) (hc : history) (l : list instance_item) :
  fst (drain_next_token w fuel page acc hc) = Returned l ->
  exists extra, l = acc ++ extra.
Proof.
  revert page acc hc. induction fuel as [|fuel IH]; intros page acc hc; simpl.
  - destruct (inst_NextToken page); run; intros H; [discriminate|].
    inversion H. exists []. now rewrite app_nil_r.
  - destruct (inst_NextToken page) as [token|]; run.
    2:{ intros H. inversion H. exists []. now rewrite app_nil_r. }
    unfold call_list_stack_set_instance.
    destruct (list_stack_set_instance w) as [f|]; run; [|discriminate].
    destruct (f hc token) as [e|page']; simpl; [discriminate|].
    destruct (inst_Summaries page') as [s|]; simpl; [|discriminate].
    specialize (IH page' (acc ++ [Page s]) (ListStackSetInstance token :: hc)).
    destruct (drain_next_token w fuel page' _ _) as [o t]. simpl in *.
    intros H. destruct (IH H) as [extra ->].
    exists ([Page s] ++ extra). now rewrite app_assoc.
Qed.

Lemma continuation_calls_quiet (tokens : list string) :
  created (continuation_calls tokens) = []
  /\ published (continuation_calls tokens) = []
  /\ telemetry (continuation_calls tokens) = []
  /\ submissions (continuation_calls tokens) = 0.
Proof.
  unfold created, published, telemetry, submissions.
  induction tokens as [|token tokens (H1 & H2 & H3 & H4)]; simpl; auto.
Qed.

Lemma locator_shape (w : World) (fuel : nat) (n account region : string)
    (hc : history) :
  exists o logged tokens tail,
    list_stack_instance_by_account_region w fuel n account region hc =
      (o, [ Log LvInfo MsgListCalled; Log LvInfo MsgTargetSession;
            Call (ListStackInstances n account region) ]
            ++ logged ++ continuation_calls tokens ++ tail)
    /\ calls_of logged = [] /\ submissions logged = 0
    /\ calls_of tail = [] /\ submissions tail = 0
    /\ (forall e, o <> Raised e).
Proof.
  unfold list_stack_instance_by_account_region. run.
  destruct (list_stack_instances w hc n account region) as [e|page]; simpl.
  - exists (Returned RFalse), [], [], [Log LvError (MsgListError e)].
    repeat split; discriminate.
  - destruct (inst_Summaries page) as [l|]; simpl.
    + destruct (drain_next_token_trace w fuel page (map Summary l)
                  (ListStackInstances n account region :: hc)) as [tokens Ht].
      destruct (drain_next_token w fuel page _ _) as [[r|e|] t];
        simpl in *; subst t.
      * exists (Returned (RList r)), [Log LvInfo (MsgStackSetResult page)], tokens, [].
        rewrite app_nil_r. repeat split; discriminate.
      * exists (Returned RFalse), [Log LvInfo (MsgStackSetResult page)], tokens,
          [Log LvError (MsgListError e)].
        repeat split; discriminate.
      * exists OutOfFuel, [Log LvInfo (MsgStackSetResult page)], tokens, [].
        rewrite app_nil_r. repeat split; discriminate.
    + exists (Returned RFalse), [Log LvInfo (MsgStackSetResult page)], [], [].
      repeat split; discriminate.
Qed.

(** ** The lifecycle path *)

(** Telemetry never raises and makes exactly its one post. *)
Lemma send_honeycomb_event_shape (w : World)
    (account event_name subaccount eventdata : string) (hc : history) :
  exists lvl msg, let line := Log lvl msg in
    send_honeycomb_event w account event_name subaccount eventdata hc =
      (Returned tt,
       [ Log LvInfo MsgHoneycombCalled;
         Log LvInfo (MsgGeneratePayload
                       (honeycomb_payload account subaccount event_name eventdata));
         Call (RequestsPost honeycomb_url honeycomb_headers
                 (honeycomb_payload account subaccount event_name eventdata));
         line ])
    /\ submissions [line] = 0.
Proof.
  unfold send_honeycomb_event. run.
  destruct (requests_post w hc honeycomb_url _) as [e|resp]; simpl;
    eexists _, _; split; reflexivity.
Qed.

Lemma lifecycle_succeeded (w : World) (env : environ) (fuel : nat)
    (ev : lambda_event) (d : event_detail) (hc : history) (url sub : string) :
  detail ev = Some d ->
  state (createManagedAccountStatus d) = "SUCCEEDED" ->
  env "lacework_url" = Some url ->
  env "lacework_sub_account_name" = Some sub ->
  let account := accountId (createManagedAccountStatus d) in
  let region := awsRegion d in
  let n := derived_stack_set_name url sub in
  exists head,
    calls_of head = [telemetry_post url sub] /\ submissions head = 0
    /\ lifecycle_eventbridge_processing w env fuel ev hc =
       let '(r, tl) := list_stack_instance_by_account_region w fuel n account region
                         (telemetry_post url sub :: hc) in
       match r with
       | Returned RFalse =>
           (Raised (TypeError "object of type 'bool' has no len()"),
            head ++ tl ++ [Log LvInfo (MsgProcessingLifecycle account region)])
       | Returned (RList []) =>
           let '(o, tc) :=
             cfn_stack_set_processing w env (lifecycle_work_item url sub account region)
               (push tl (telemetry_post url sub :: hc)) in
           (o, head ++ tl
                 ++ [Log LvInfo (MsgProcessingLifecycle account region);
                     Log LvInfo (MsgCreateNewInstance n account region)] ++ tc)
       | Returned (RList (_ :: _)) =>
           (Returned tt,
            head ++ tl
              ++ [Log LvInfo (MsgProcessingLifecycle account region);
                  Log LvInfo (MsgInstanceAlreadyExists n account region)])
       | Raised e => (Raised e, head ++ tl)
       | OutOfFuel => (OutOfFuel, head ++ tl)
       end.
Proof.
  intros Hd Hst Hurl Hsub account region n.
  destruct (send_honeycomb_event_shape w (get_account_from_url url) "add account"
              sub default_eventdata hc) as (lvl & msg & Hsend & Hsubm).
  cbv zeta in Hsend, Hsubm. set (line := Log lvl msg) in *.
  exists ([Log LvInfo MsgLifecycleCalled; Log LvInfo (MsgEventDump ev)]
            ++ [ Log LvInfo MsgHoneycombCalled;
                 Log LvInfo (MsgGeneratePayload
                               (honeycomb_payload (get_account_from_url url) sub
                                  "add account" default_eventdata));
                 Call (telemetry_post url sub); line ]).
  split; [|split].
  - reflexivity.
  - unfold submissions in *. simpl in *. exact Hsubm.
  - unfold lifecycle_eventbridge_processing.
    unfold bind at 1 2 3, log at 1 2. rewrite Hd. unfold ret at 1.
    cbv beta iota zeta. rewrite Hst.
    change (String.eqb "SUCCEEDED" "SUCCEEDED") with true. cbv iota.
    change (push [] (push [Log LvInfo (MsgEventDump ev)]
                       (push [Log LvInfo MsgLifecycleCalled] hc))) with hc.
    unfold bind at 1 2, os_environ. rewrite Hurl, Hsub. unfold ret at 1 2.
    cbv beta iota zeta. change (push [] (push [] hc)) with hc.
    unfold bind at 1. rewrite Hsend. cbv beta iota zeta.
    match goal with |- context [push ?t hc] =>
      change (push t hc) with (telemetry_post url sub :: hc) end.
    unfold bind at 1.
    fold account region. fold (derived_stack_set_name url sub). fold n.
    destruct (list_stack_instance_by_account_region w fuel n account region
                (telemetry_post url sub :: hc)) as [[[|[|x l]]|e|] tl];
      unfold bind, log, py_len, raise, ret, lifecycle_work_item; fold n;
      cbn [List.length Nat.eqb Nat.ltb Nat.leb push calls_of rev_append];
      try (destruct (cfn_stack_set_processing w env _ _) as [o tc]);
      cbn [app]; rewrite <- ?app_assoc; cbn [app]; rewrite ?app_nil_r;
      reflexivity.
Qed.

Lemma drain_next_token_last_page (w : World) (fuel : nat) (page : instances_page)
    (acc : list instance_item) (hc : history) :
  inst_NextToken page = None ->
  drain_next_token w fuel page acc hc = (Returned acc, []).
Proof. intros H. destruct fuel; simpl; now rewrite H. Qed.

Lemma locator_quiet (w : World) (fuel : nat) (n account region : string)
    (hc : history) :
  let t := snd (list_stack_instance_by_account_region w fuel n account region hc) in
  created t = [] /\ published t = [] /\ telemetry t = [] /\ submissions t = 0
  /\ exists rest, calls_of t = ListStackInstances n account region :: rest.
Proof.
  destruct (locator_shape w fuel n account region hc)
    as (o & logged & tokens & tail & E & Hl & Hsl & Ht & Hst & _).
  rewrite E. cbn [snd].
  destruct (continuation_calls_quiet tokens) as (Hc & Hp & Hte & Hsu).
  unfold created, published, telemetry in *.
  rewrite !submissions_app, !calls_of_app, Hl, Ht, Hsl, Hst, Hsu. simpl.
  rewrite !app_nil_r. repeat split; try assumption. eauto.
Qed.

(** With an instance on the first page the locator never answers with an
    empty list. *)
Lemma locator_existing (w : World) (fuel : nat) (n account region : string)
    (hc : history) (page : instances_page) (s : instance_summary)
    (rest : list instance_summary) :
  list_stack_instances w hc n account region = inr page ->
  inst_Summaries page = Some (s :: rest) ->
  fst (list_stack_instance_by_account_region w fuel n account region hc)
    <> Returned (RList []).
Proof.
  intros Hp Hs. unfold list_stack_instance_by_account_region. run.
  rewrite Hp. simpl. rewrite Hs. simpl.
  pose proof (drain_next_token_extends w fuel page (Summary s :: map Summary rest)
                (ListStackInstances n account region :: hc)) as Hext.
  destruct (drain_next_token w fuel page _ _) as [[r|e|] t]; simpl in *;
    try discriminate.
  intros H. inversion H; subst r. destruct (Hext [] eq_refl) as [extra E].
  discriminate.
Qed.

Lemma locator_single_page (w : World) (fuel : nat) (n account region : string)
    (hc : history) (page : instances_page) (l : list instance_summary) :
  list_stack_instances w hc n account region = inr page ->
  inst_Summaries page = Some l ->
  inst_NextToken page = None ->
  list_stack_instance_by_account_region w fuel n account region hc =
    (Returned (RList (map Summary l)),
     [ Log LvInfo MsgListCalled; Log LvInfo MsgTargetSession;
       Call (ListStackInstances n account region);
       Log LvInfo (MsgStackSetResult page) ]).
Proof.
  intros Hp Hs Ht. unfold list_stack_instance_by_account_region. run.
  rewrite Hp. simpl. rewrite Hs. simpl.
  now rewrite (drain_next_token_last_page w fuel page _ _ Ht).
Qed.

(** ** The claims about the locator and the lifecycle path *)

(** C7, on the code.  When the first page carries a continuation token the
    loop does not fetch with [list_stack_instances] again.  With a client
    that has no [list_stack_set_instance] the locator answers [False]
    after the first page.  With a client that has one, the continuation is
    fetched with that other operation, given the token alone, and the
    page's summaries are appended as one nested element. *)
Theorem C7_continuation_pages_not_accumulated (w : World) (fuel : nat)
    (n account region : string) (hc : history) (page : instances_page)
    (l : list instance_summary) (token : string) :
  list_stack_instances w hc n account region = inr page ->
  inst_Summaries page = Some l ->
  inst_NextToken page = Some token ->
  let first_page :=
    [ Log LvInfo MsgListCalled; Log LvInfo MsgTargetSession;
      Call (ListStackInstances n account region);
      Log LvInfo (MsgStackSetResult page) ] in
  match list_stack_set_instance w with
  | None =>
      list_stack_instance_by_account_region w (S fuel) n account region hc =
        (Returned RFalse,
         first_page
           ++ [Log LvError (MsgListError (AttributeError "list_stack_set_instance"))])
  | Some f =>
      forall page2 l2,
        f (ListStackInstances n account region :: hc) token = inr page2 ->
        inst_Summaries page2 = Some l2 ->
        inst_NextToken page2 = None ->
        list_stack_instance_by_account_region w (S fuel) n account region hc =
          (Returned (RList (map Summary l ++ [Page l2])),
           first_page ++ [Call (ListStackSetInstance token)])
  end.
Proof.
  intros Hp Hs Ht first_page.
  unfold list_stack_instance_by_account_region, drain_next_token.
  fold drain_next_token. unfold call_list_stack_set_instance.
  destruct (list_stack_set_instance w) as [f|].
  - intros page2 l2 Hf Hs2 Ht2. run. rewrite Hp. simpl. rewrite Hs, Ht. simpl.
    rewrite Hf. simpl. rewrite Hs2. simpl.
    now rewrite (drain_next_token_last_page w fuel page2 _ _ Ht2).
  - run. rewrite Hp. simpl. rewrite Hs, Ht. reflexivity.
Qed.

(** C6, on the code.  For a SUCCEEDED notification whose existence check
    answers [False], the handling calls [len] on that [False]: it raises
    [TypeError], builds no work item and never enters the orchestrator. *)
Theorem C6_failed_check_raises_type_error (w : World) (env : environ)
    (fuel : nat) (ev : lambda_event) (d : event_detail) (hc : history)
    (url sub : string) :
  detail ev = Some d ->
  state (createManagedAccountStatus d) = "SUCCEEDED" ->
  env "lacework_url" = Some url ->
  env "lacework_sub_account_name" = Some sub ->
  fst (list_stack_instance_by_account_region w fuel
         (derived_stack_set_name url sub)
         (accountId (createManagedAccountStatus d)) (awsRegion d)
         (telemetry_post url sub :: hc)) = Returned RFalse ->
  let '(o, t) := lifecycle_eventbridge_processing w env fuel ev hc in
  o = Raised (TypeError "object of type 'bool' has no len()")
  /\ submissions t = 0
  /\ created t = [].
Proof.
  intros Hd Hst Hurl Hsub Hloc.
  destruct (lifecycle_succeeded w env fuel ev d hc url sub Hd Hst Hurl Hsub)
    as (head & Hcalls & Hsubm & Hrun).
  cbv zeta in Hrun. rewrite Hrun.
  pose proof (locator_quiet w fuel (derived_stack_set_name url sub)
                (accountId (createManagedAccountStatus d)) (awsRegion d)
                (telemetry_post url sub :: hc)) as (Hc & _ & _ & Hs & _).
  destruct (list_stack_instance_by_account_region w fuel _ _ _ _) as [r tl].
  simpl in Hloc, Hc, Hs. subst r.
  split; [reflexivity|]. split.
  - rewrite !submissions_app, Hsubm, Hs. reflexivity.
  - rewrite !created_app, Hc. unfold created. rewrite Hcalls. reflexivity.
Qed.

(** C8.  For a SUCCEEDED notification, when the first answer of
    [list_stack_instances] for the derived stack set, account and region
    holds at least one instance, the handling makes no
    [create_stack_instances] call, never enters the orchestrator and
    publishes nothing; when that answer is the only page, it returns
    normally after logging that the instance already exists. *)
Theorem C8_existing_instance_is_a_noop (w : World) (env : environ)
    (fuel : nat) (ev : lambda_event) (d : event_detail) (hc : history)
    (url sub : string) (page : instances_page) (s : instance_summary)
    (rest : list instance_summary) :
  detail ev = Some d ->
  state (createManagedAccountStatus d) = "SUCCEEDED" ->
  env "lacework_url" = Some url ->
  env "lacework_sub_account_name" = Some sub ->
  let account := accountId (createManagedAccountStatus d) in
  let region := awsRegion d in
  let n := derived_stack_set_name url sub in
  list_stack_instances w (telemetry_post url sub :: hc) n account region = inr page ->
  inst_Summaries page = Some (s :: rest) ->
  let '(o, t) := lifecycle_eventbridge_processing w env fuel ev hc in
  created t = []
  /\ submissions t = 0
  /\ published t = []
  /\ (inst_NextToken page = None ->
      o = Returned tt
      /\ In (Log LvInfo (MsgInstanceAlreadyExists n account region)) t).
Proof.
  intros Hd Hst Hurl Hsub account region n Hp Hs.
  destruct (lifecycle_succeeded w env fuel ev d hc url sub Hd Hst Hurl Hsub)
    as (head & Hcalls & Hsubm & Hrun).
  cbv zeta in Hrun. fold account region n in Hrun. rewrite Hrun.
  pose proof (locator_quiet w fuel n account region (telemetry_post url sub :: hc))
    as (Hc & Hpub & _ & Hsu & _).
  pose proof (locator_existing w fuel n account region _ page s rest Hp Hs) as Hne.
  pose proof (locator_single_page w fuel n account region _ page (s :: rest) Hp Hs)
    as Hone.
  destruct (list_stack_instance_by_account_region w fuel n account region _)
    as [r tl].
  simpl in Hc, Hpub, Hsu, Hne.
  assert (Hhc : created head = []) by (unfold created; now rewrite Hcalls).
  assert (Hhp : published head = []) by (unfold published; now rewrite Hcalls).
  destruct r as [[|[|x l]]|e|]; try congruence;
    (split; [|split; [|split]]);
    rewrite ?created_app, ?published_app, ?submissions_app, ?Hhc, ?Hhp, ?Hc,
      ?Hpub, ?Hsubm, ?Hsu; try reflexivity;
    intros Htok; specialize (Hone Htok); try discriminate.
  split; [reflexivity|].
  apply in_or_app. right. apply in_or_app. right. right. now left.
Qed.

Lemma drain_ignores_post (w : World) answer (fuel : nat) (page : instances_page)
    (acc : list instance_item) (hc : history) :
  drain_next_token (with_requests_post w answer) fuel page acc hc =
  drain_next_token w fuel page acc hc.
Proof.
  revert page acc hc. induction fuel as [|fuel IH]; intros page acc hc; simpl.
  - reflexivity.
  - destruct (inst_NextToken page) as [token|]; [|reflexivity].
    unfold bind. change (call_list_stack_set_instance (with_requests_post w answer))
      with (call_list_stack_set_instance w).
    destruct (call_list_stack_set_instance w token hc) as [[page'|e|] t];
      try reflexivity.
    destruct (match inst_Summaries page' with
              | Some l => ret l
              | None => raise (KeyError "Summaries")
              end (push t hc)) as [[l|e|] t']; try reflexivity.
    now rewrite IH.
Qed.

Lemma locator_ignores_post (w : World) answer (fuel : nat)
    (n account region : string) (hc : history) :
  list_stack_instance_by_account_region (with_requests_post w answer) fuel
    n account region hc =
  list_stack_instance_by_account_region w fuel n account region hc.
Proof.
  unfold list_stack_instance_by_account_region. run.
  destruct (list_stack_instances w hc n account region) as [e|page]; simpl;
    [reflexivity|].
  destruct (inst_Summaries page); [|reflexivity].
  now rewrite drain_ignores_post.
Qed.

Lemma cfn_ignores_post (w : World) answer (env : environ) (messages : batch)
    (hc : history) :
  cfn_stack_set_processing (with_requests_post w answer) env messages hc =
  cfn_stack_set_processing w env messages hc.
Proof. reflexivity. Qed.

(** The orchestrator sends no telemetry. *)
Lemma cfn_no_telemetry (w : World) (env : environ) (messages : batch)
    (hc : history) :
  telemetry (snd (cfn_stack_set_processing w env messages hc)) = [].
Proof.
  destruct (env "lacework_account_sns") as [sns|] eqn:Hs.
  2:{ unfold cfn_stack_set_processing. run. now rewrite Hs. }
  destruct (env "lacework_api_credentials") as [cred|] eqn:Hc.
  2:{ unfold cfn_stack_set_processing. run. now rewrite Hs, Hc. }
  destruct (get_access_token_returns w cred hc) as ([tok|] & t0 & Ht & Hcalls).
  - rewrite (cfn_resolved w env messages hc sns cred tok t0 Hs Hc Ht).
    pose proof (for_each_trace_ind (fun t => telemetry t = [])
                  (process_entry w sns tok messages) messages eq_refl) as H.
    specialize (H (fun t1 t2 H1 H2 =>
      eq_trans (telemetry_app t1 t2)
        (eq_trans (f_equal2 (@app call) H1 H2) eq_refl))).
    assert (Hbody : forall x hc', In x messages ->
              telemetry (snd (process_entry w sns tok messages x hc')) = []).
    { intros [m q] hc' _. apply (entry_calls_no_telemetry sns m).
      apply process_entry_calls. }
    specialize (H Hbody (push t0 hc)).
    destruct (for_each messages _ (push t0 hc)) as [o t]. simpl in *.
    change (Log ?a ?b :: t0 ++ t) with ((Log a b :: t0) ++ t).
    rewrite telemetry_app, H. unfold telemetry. simpl. now rewrite Hcalls.
  - rewrite (cfn_unresolved w env messages hc sns cred t0 Hs Hc Ht).
    unfold telemetry. simpl. rewrite calls_of_app, Hcalls. reflexivity.
Qed.

(** C10.  For a SUCCEEDED notification, with the two naming settings
    present, the telemetry post is the first outside call and the existence
    check the second; the run holds exactly one telemetry post, whether or
    not an instance exists and whether or not a work item is built; and
    with any other answer to that post the run has the same outcome, the
    same outside calls and enters the orchestrator as often. *)
Theorem C10_telemetry_first_and_without_effect (w : World) (env : environ)
    (fuel : nat) (ev : lambda_event) (d : event_detail) (hc : history)
    (url sub : string) :
  detail ev = Some d ->
  state (createManagedAccountStatus d) = "SUCCEEDED" ->
  env "lacework_url" = Some url ->
  env "lacework_sub_account_name" = Some sub ->
  let '(o, t) := lifecycle_eventbridge_processing w env fuel ev hc in
  telemetry t = [telemetry_post url sub]
  /\ (exists rest,
        calls_of t =
          telemetry_post url sub
            :: ListStackInstances (derived_stack_set_name url sub)
                 (accountId (createManagedAccountStatus d)) (awsRegion d)
            :: rest)
  /\ forall answer,
       let '(o', t') :=
         lifecycle_eventbridge_processing (with_requests_post w answer) env fuel
           ev hc in
       o' = o /\ calls_of t' = calls_of t /\ submissions t' = submissions t.
Proof.
  intros Hd Hst Hurl Hsub.
  destruct (lifecycle_succeeded w env fuel ev d hc url sub Hd Hst Hurl Hsub)
    as (head & Hcalls & Hsubm & Hrun).
  cbv zeta in Hrun. rewrite Hrun.
  pose proof (locator_quiet w fuel (derived_stack_set_name url sub)
                (accountId (createManagedAccountStatus d)) (awsRegion d)
                (telemetry_post url sub :: hc)) as (_ & _ & Hlt & _ & rest & Hlc).
  assert (Hht : telemetry head = [telemetry_post url sub]).
  { unfold telemetry. now rewrite Hcalls. }
  destruct (list_stack_instance_by_account_region w fuel _ _ _ _) as [r tl]
    eqn:Eloc.
  cbn [snd] in Hlt, Hlc.
  assert (Hother : forall answer,
            exists head',
              calls_of head' = [telemetry_post url sub] /\ submissions head' = 0
              /\ lifecycle_eventbridge_processing (with_requests_post w answer)
                   env fuel ev hc =
                 match r with
                 | Returned RFalse =>
                     (Raised (TypeError "object of type 'bool' has no len()"),
                      head' ++ tl
                        ++ [Log LvInfo (MsgProcessingLifecycle
                                          (accountId (createManagedAccountStatus d))
                                          (awsRegion d))])
                 | Returned (RList []) =>
                     let '(o, tc) :=
                       cfn_stack_set_processing w env
                         (lifecycle_work_item url sub
                            (accountId (createManagedAccountStatus d)) (awsRegion d))
                         (push tl (telemetry_post url sub :: hc)) in
                     (o, head' ++ tl
                           ++ [Log LvInfo (MsgProcessingLifecycle
                                             (accountId (createManagedAccountStatus d))
                                             (awsRegion d));
                               Log LvInfo (MsgCreateNewInstance
                                             (derived_stack_set_name url sub)
                                             (accountId (createManagedAccountStatus d))
                                             (awsRegion d))] ++ tc)
                 | Returned (RList (_ :: _)) =>
                     (Returned tt,
                      head' ++ tl
                        ++ [Log LvInfo (MsgProcessingLifecycle
                                          (accountId (createManagedAccountStatus d))
                                          (awsRegion d));
                            Log LvInfo (MsgInstanceAlreadyExists
                                          (derived_stack_set_name url sub)
                                          (accountId (createManagedAccountStatus d))
                                          (awsRegion d))])
                 | Raised e => (Raised e, head' ++ tl)
                 | OutOfFuel => (OutOfFuel, head' ++ tl)
                 end).
  { intros answer.
    destruct (lifecycle_succeeded (with_requests_post w answer) env fuel ev d hc
                url sub Hd Hst Hurl Hsub) as (head' & Hc' & Hs' & Hrun').
    cbv zeta in Hrun'. rewrite locator_ignores_post, Eloc in Hrun'.
    exists head'. split; [exact Hc'|]. split; [exact Hs'|]. exact Hrun'. }
  destruct r as [[|[|x l]]|e|].
  2:{ pose proof (cfn_no_telemetry w env
                    (lifecycle_work_item url sub
                       (accountId (createManagedAccountStatus d)) (awsRegion d))
                    (push tl (telemetry_post url sub :: hc))) as Hct.
      destruct (cfn_stack_set_processing w env _ _) as [o tc].
      cbn [snd] in Hct.
      split; [|split].
      - now rewrite !telemetry_app, Hht, Hlt, Hct.
      - rewrite !calls_of_app, Hcalls, Hlc. simpl. eauto.
      - intros answer. destruct (Hother answer) as (head' & Hc' & Hs' & ->).
        split; [reflexivity|].
        rewrite !calls_of_app, !submissions_app, Hc', Hs', Hcalls, Hsubm.
        split; reflexivity. }
  all: split; [|split];
    [ now rewrite ?telemetry_app, Hht, Hlt
    | rewrite ?calls_of_app, Hcalls, Hlc; simpl; eauto
    | intros answer; destruct (Hother answer) as (head' & Hc' & Hs' & ->);
      split; [reflexivity|];
      rewrite ?calls_of_app, ?submissions_app, Hc', Hs', Hcalls, Hsubm;
      split; reflexivity ].
Qed.

(** ** The claims on the sample worlds *)

Ltac distinct_keys :=
  repeat constructor; simpl; intuition discriminate.

Lemma C1_witness :
  let messages := [(Sample.busy_set, Sample.one_target);
                   (Sample.acme, Sample.two_targets)] in
  NoDup (map fst messages)
  /\ exists req,
       created_for Sample.acme
         (snd (cfn_stack_set_processing Sample.world Sample.env messages []))
         = [CreateStackInstances req]
       /\ StackSetName req = Sample.acme
       /\ Accounts req = target_accounts Sample.two_targets
       /\ Regions req = target_regions Sample.two_targets
       /\ ParameterOverrides req =
            [ {| ParameterKey := "AccessToken"; ParameterValue := "tok";
                 UsePreviousValue := false; ResolvedValue := "string" |} ]
       /\ RegionConcurrencyType (OperationPreferences req) = "PARALLEL"
       /\ FailureToleranceCount (OperationPreferences req) = 999%Z.
Proof.
  intros messages. split; [distinct_keys|].
  apply (C1_reached_idle_entry_creates_once Sample.world Sample.env messages
           [(Sample.busy_set, Sample.one_target)] [] Sample.acme Sample.two_targets
           [] "arn:aws:sns:topic" "LaceworkApiCredentials" "tok"
           (snd (get_access_token Sample.world "LaceworkApiCredentials" []))
           (snd (for_each [(Sample.busy_set, Sample.one_target)]
                   (process_entry Sample.world "arn:aws:sns:topic" "tok" messages)
                   [GetSecretValue "LaceworkApiCredentials"])));
    try reflexivity.
  distinct_keys.
Defined.

(** C1 as first stated fails: the entry after a missing stack set exists
    and is idle, the credential resolves, and yet no instance is created
    for it. *)
Lemma C1_counterexample :
  let messages := [(Sample.missing_set, Sample.one_target);
                   (Sample.acme, Sample.two_targets)] in
  fst (get_access_token Sample.world "LaceworkApiCredentials" [])
    = Returned (Some "tok")
  /\ In (Sample.acme, Sample.two_targets) messages
  /\ (forall hc, describe_stack_set Sample.world hc Sample.acme = inr tt)
  /\ (forall hc,
        listing_idle (list_stack_set_operations Sample.world hc Sample.acme) = true)
  /\ created_for Sample.acme
       (snd (cfn_stack_set_processing Sample.world Sample.env messages [])) = [].
Proof.
  intros messages. split; [reflexivity|]. split; [right; now left|].
  split; [reflexivity|]. split; reflexivity.
Qed.

Lemma C2_witness :
  let messages := [(Sample.acme, Sample.two_targets);
                   (Sample.busy_set, Sample.one_target);
                   (Sample.other_set, Sample.one_target)] in
  let t0 := snd (get_access_token Sample.world "LaceworkApiCredentials" []) in
  let t1 := snd (for_each [(Sample.acme, Sample.two_targets)]
                   (process_entry Sample.world "arn:aws:sns:topic" "tok" messages)
                   [GetSecretValue "LaceworkApiCredentials"]) in
  let message := Sample.dumps [(Sample.busy_set, Sample.one_target)] in
  NoDup (map fst messages)
  /\ exists before t_post o,
       let t_e :=
         before
           ++ [ Call (TimeSleep 20);
                Call (SnsPublish "arn:aws:sns:topic" message);
                match sns_publish Sample.world
                        (push (before ++ [Call (TimeSleep 20)])
                           (push t1 (push t0 [])))
                        "arn:aws:sns:topic" message with
                | inl e => Log LvError (MsgFailedToSendQueue e)
                | inr r => Log LvInfo (MsgRequeued r)
                end ] in
       cfn_stack_set_processing Sample.world Sample.env messages [] =
         (o, Log LvInfo MsgStackSetProcessingCalled :: t0 ++ t1 ++ t_e ++ t_post)
       /\ for_each [(Sample.other_set, Sample.one_target)]
            (process_entry Sample.world "arn:aws:sns:topic" "tok" messages)
            (push t_e (push t1 (push t0 []))) = (o, t_post)
       /\ published before = []
       /\ created t_e = []
       /\ published t_e = [SnsPublish "arn:aws:sns:topic" message]
       /\ created_for Sample.busy_set
            (Log LvInfo MsgStackSetProcessingCalled :: t0 ++ t1 ++ t_e ++ t_post)
          = [].
Proof.
  intros messages t0 t1 message. split; [distinct_keys|].
  apply (C2_reached_busy_entry_requeues_once Sample.world Sample.env messages
           [(Sample.acme, Sample.two_targets)]
           [(Sample.other_set, Sample.one_target)]
           Sample.busy_set Sample.one_target [] "arn:aws:sns:topic"
           "LaceworkApiCredentials" "tok" t0 t1);
    try reflexivity.
  distinct_keys.
Defined.

(** C2 as first stated fails.  The stack set of the second entry exists and
    shows a RUNNING operation, but the first entry's stack set is missing:
    the run raises there and publishes nothing.  The same entry alone,
    under a credential that does not resolve, is not published either. *)
Lemma C2_counterexample :
  let messages := [(Sample.missing_set, Sample.one_target);
                   (Sample.busy_set, Sample.one_target)] in
  (forall hc, describe_stack_set Sample.world hc Sample.busy_set = inr tt)
  /\ (forall hc,
        listing_busy (list_stack_set_operations Sample.world hc Sample.busy_set)
          = true)
  /\ fst (get_access_token Sample.world "LaceworkApiCredentials" [])
       = Returned (Some "tok")
  /\ published (snd (cfn_stack_set_processing Sample.world Sample.env messages []))
       = []
  /\ published (snd (cfn_stack_set_processing Sample.lenient_world Sample.env
                        messages [])) = []
  /\ published (snd (cfn_stack_set_processing Sample.world_without_secret
                        Sample.env [(Sample.busy_set, Sample.one_target)] []))
       = [].
Proof.
  intros messages. repeat split; reflexivity.
Qed.

Lemma C3_witness :
  let '(o, t) :=
    cfn_stack_set_processing Sample.world_without_secret Sample.env
      [(Sample.acme, Sample.one_target)] [] in
  o = Returned tt
  /\ In (Log LvError MsgUnableToGetToken) t
  /\ calls_of t = [GetSecretValue "LaceworkApiCredentials"]
  /\ filter is_describe (calls_of t) = []
  /\ filter is_list_operations (calls_of t) = []
  /\ filter is_create (calls_of t) = [].
Proof.
  apply (C3_null_credential_aborts_batch Sample.world_without_secret Sample.env
           [(Sample.acme, Sample.one_target)] [] "arn:aws:sns:topic"
           "LaceworkApiCredentials"
           (snd (get_access_token Sample.world_without_secret
                   "LaceworkApiCredentials" [])));
    reflexivity.
Defined.

Lemma C4_witness :
  fst (cfn_stack_set_processing Sample.steady_world Sample.env
         [(Sample.busy_set, Sample.one_target); (Sample.acme, Sample.two_targets)]
         []) = Returned tt
  /\ (exists e',
        fst (cfn_stack_set_processing Sample.world Sample.env
               [(Sample.acme, Sample.two_targets);
                (Sample.missing_set, Sample.one_target)] []) = Raised e')
  /\ (forall e,
        fst (lambda_handler Sample.world Sample.env 1
               (Sample.lifecycle_event "SUCCEEDED" "333333333333") [])
          <> Raised e).
Proof.
  split; [|split].
  - apply (proj1 (C4_failures_absorbed_by_the_handler Sample.steady_world
                    Sample.env "arn:aws:sns:topic" "LaceworkApiCredentials"
                    eq_refl eq_refl)).
    + reflexivity.
    + intros h m r. simpl.
      destruct (String.eqb m Sample.busy_set); simpl; intuition eauto;
        subst; eauto.
    + intros h req. now exists "op-3".
  - apply (proj1 (proj2 (C4_failures_absorbed_by_the_handler Sample.world
                           Sample.env "arn:aws:sns:topic" "LaceworkApiCredentials"
                           eq_refl eq_refl))
             [(Sample.acme, Sample.two_targets);
              (Sample.missing_set, Sample.one_target)]
             [(Sample.acme, Sample.two_targets)] [] Sample.missing_set
             Sample.one_target [] "tok"
             (snd (get_access_token Sample.world "LaceworkApiCredentials" []))
             (snd (for_each [(Sample.acme, Sample.two_targets)]
                     (process_entry Sample.world "arn:aws:sns:topic" "tok"
                        [(Sample.acme, Sample.two_targets);
                         (Sample.missing_set, Sample.one_target)])
                     [GetSecretValue "LaceworkApiCredentials"]))
             (ClientError "StackSetNotFoundException"));
      reflexivity.
  - apply (proj2 (proj2 (C4_failures_absorbed_by_the_handler Sample.world
                           Sample.env "arn:aws:sns:topic" "LaceworkApiCredentials"
                           eq_refl eq_refl))).
Defined.

(** C4 as first stated fails: a batch that names a missing stack set makes
    the orchestrator raise, with either kind of client. *)
Lemma C4_counterexample :
  fst (cfn_stack_set_processing Sample.world Sample.env
         [(Sample.missing_set, Sample.one_target)] [])
    = Raised (AttributeError "stack_setNotFoundException")
  /\ fst (cfn_stack_set_processing Sample.lenient_world Sample.env
            [(Sample.missing_set, Sample.one_target)] [])
       = Raised (ClientError "StackSetNotFoundException").
Proof. split; reflexivity. Qed.

Lemma C5_witness :
  let messages := [(Sample.acme, Sample.two_targets);
                   (Sample.missing_set, Sample.one_target);
                   (Sample.busy_set, Sample.one_target)] in
  let t0 := snd (get_access_token Sample.world "LaceworkApiCredentials" []) in
  let t1 := snd (for_each [(Sample.acme, Sample.two_targets)]
                   (process_entry Sample.world "arn:aws:sns:topic" "tok" messages)
                   [GetSecretValue "LaceworkApiCredentials"]) in
  exists e' t_e,
    cfn_stack_set_processing Sample.world Sample.env messages [] =
      (Raised e', Log LvInfo MsgStackSetProcessingCalled :: t0 ++ t1 ++ t_e)
    /\ calls_of t_e = [DescribeStackSet Sample.missing_set]
    /\ published t_e = [].
Proof.
  intros messages t0 t1.
  apply (C5_missing_group_ends_the_batch Sample.world Sample.env messages
           [(Sample.acme, Sample.two_targets)]
           [(Sample.busy_set, Sample.one_target)]
           Sample.missing_set Sample.one_target [] "arn:aws:sns:topic"
           "LaceworkApiCredentials" "tok" t0 t1
           (ClientError "StackSetNotFoundException"));
    reflexivity.
Defined.

(** C5 as first stated fails: the stack set of the first entry is missing
    and the second entry, whose stack set exists, is never looked at. *)
Lemma C5_counterexample :
  let messages := [(Sample.missing_set, Sample.one_target);
                   (Sample.acme, Sample.two_targets)] in
  let '(o, t) := cfn_stack_set_processing Sample.world Sample.env messages [] in
  fst (get_access_token Sample.world "LaceworkApiCredentials" [])
    = Returned (Some "tok")
  /\ (forall hc, describe_stack_set Sample.world hc Sample.missing_set
                  = inl (ClientError "StackSetNotFoundException"))
  /\ (forall hc, describe_stack_set Sample.world hc Sample.acme = inr tt)
  /\ calls_of t = [ GetSecretValue "LaceworkApiCredentials";
                    DescribeStackSet Sample.missing_set ]
  /\ ~ In (DescribeStackSet Sample.acme) (calls_of t)
  /\ created t = [].
Proof.
  simpl. repeat split; try reflexivity.
  intros [H|[H|[]]]; discriminate H.
Qed.

Lemma C6_witness :
  let '(o, t) :=
    lifecycle_eventbridge_processing Sample.world Sample.env 1
      (Sample.lifecycle_event "SUCCEEDED" "333333333333") [] in
  o = Raised (TypeError "object of type 'bool' has no len()")
  /\ submissions t = 0
  /\ created t = [].
Proof.
  apply (C6_failed_check_raises_type_error Sample.world Sample.env 1
           (Sample.lifecycle_event "SUCCEEDED" "333333333333")
           {| eventName := "CreateManagedAccount"; awsRegion := "us-east-1";
              createManagedAccountStatus :=
                {| state := "SUCCEEDED"; accountId := "333333333333" |} |}
           [] "acme.lacework.net" EmptyString);
    reflexivity.
Defined.

Lemma C7_witness :
  list_stack_instance_by_account_region Sample.world 1 Sample.acme
    "444444444444" "us-east-1" [] =
    (Returned RFalse,
     [ Log LvInfo MsgListCalled; Log LvInfo MsgTargetSession;
       Call (ListStackInstances Sample.acme "444444444444" "us-east-1");
       Log LvInfo (MsgStackSetResult
                     {| inst_Summaries := Some [Sample.an_instance];
                        inst_NextToken := Some "t1" |}) ]
       ++ [Log LvError (MsgListError (AttributeError "list_stack_set_instance"))])
  /\ list_stack_instance_by_account_region Sample.lenient_world 1 Sample.acme
       "444444444444" "us-east-1" [] =
       (Returned (RList (map Summary [Sample.an_instance]
                           ++ [Page [Sample.an_instance]])),
        [ Log LvInfo MsgListCalled; Log LvInfo MsgTargetSession;
          Call (ListStackInstances Sample.acme "444444444444" "us-east-1");
          Log LvInfo (MsgStackSetResult
                        {| inst_Summaries := Some [Sample.an_instance];
                           inst_NextToken := Some "t1" |}) ]
          ++ [Call (ListStackSetInstance "t1")]).
Proof.
  split.
  - apply (C7_continuation_pages_not_accumulated Sample.world 0 Sample.acme
             "444444444444" "us-east-1" []
             {| inst_Summaries := Some [Sample.an_instance];
                inst_NextToken := Some "t1" |}
             [Sample.an_instance] "t1"); reflexivity.
  - apply (C7_continuation_pages_not_accumulated Sample.lenient_world 0
             Sample.acme "444444444444" "us-east-1" []
             {| inst_Summaries := Some [Sample.an_instance];
                inst_NextToken := Some "t1" |}
             [Sample.an_instance] "t1" eq_refl eq_refl eq_refl
             {| inst_Summaries := Some [Sample.an_instance];
                inst_NextToken := None |}
             [Sample.an_instance]); reflexivity.
Defined.

Lemma C8_witness :
  let '(o, t) :=
    lifecycle_eventbridge_processing Sample.world Sample.env 1
      (Sample.lifecycle_event "SUCCEEDED" "111111111111") [] in
  created t = []
  /\ submissions t = 0
  /\ published t = []
  /\ (@None string = None ->
      o = Returned tt
      /\ In (Log LvInfo (MsgInstanceAlreadyExists Sample.acme "111111111111"
                           "us-east-1")) t).
Proof.
  apply (C8_existing_instance_is_a_noop Sample.world Sample.env 1
           (Sample.lifecycle_event "SUCCEEDED" "111111111111")
           {| eventName := "CreateManagedAccount"; awsRegion := "us-east-1";
              createManagedAccountStatus :=
                {| state := "SUCCEEDED"; accountId := "111111111111" |} |}
           [] "acme.lacework.net" EmptyString
           {| inst_Summaries := Some [Sample.an_instance];
              inst_NextToken := None |}
           Sample.an_instance []);
    reflexivity.
Defined.

Lemma C9_witness :
  let messages := [(Sample.busy_set, Sample.one_target);
                   (Sample.acme, Sample.two_targets)] in
  let t0 := snd (get_access_token Sample.world "LaceworkApiCredentials" []) in
  NoDup (map fst messages)
  /\ exists t_e earlier,
       push t_e (push [] (push t0 [])) =
         SnsPublish "arn:aws:sns:topic"
           (Sample.dumps [(Sample.busy_set, Sample.one_target)])
           :: TimeSleep 20 :: earlier
       /\ cfn_stack_set_processing Sample.world Sample.env messages [] =
            let '(o, t_post) :=
              for_each [(Sample.acme, Sample.two_targets)]
                (process_entry Sample.world "arn:aws:sns:topic" "tok" messages)
                (push t_e (push [] (push t0 []))) in
            (o, Log LvInfo MsgStackSetProcessingCalled
                  :: t0 ++ [] ++ t_e ++ t_post).
Proof.
  intros messages t0. split; [distinct_keys|].
  apply (C9_busy_entry_sleeps_before_the_next Sample.world Sample.env messages
           [] [(Sample.acme, Sample.two_targets)] Sample.busy_set
           Sample.one_target [] "arn:aws:sns:topic" "LaceworkApiCredentials"
           "tok" t0 []);
    try reflexivity.
  distinct_keys.
Defined.

(** C9 as first stated fails: the run itself sleeps for twenty seconds
    after the busy entry, and the describe call of the next entry comes
    only after that sleep. *)
Lemma C9_counterexample :
  let messages := [(Sample.busy_set, Sample.one_target);
                   (Sample.acme, Sample.two_targets)] in
  let t := snd (cfn_stack_set_processing Sample.world Sample.env messages []) in
  exists before after,
    calls_of t = before ++ TimeSleep 20 :: after
    /\ ~ In (DescribeStackSet Sample.acme) before
    /\ after =
         [ SnsPublish "arn:aws:sns:topic"
             (Sample.dumps [(Sample.busy_set, Sample.one_target)]);
           DescribeStackSet Sample.acme;
           ListStackSetOperations Sample.acme;
           CreateStackInstances
             (create_request_for Sample.acme
                (target_accounts Sample.two_targets)
                (target_regions Sample.two_targets) "tok") ].
Proof.
  intros messages t.
  exists [ GetSecretValue "LaceworkApiCredentials";
           DescribeStackSet Sample.busy_set;
           ListStackSetOperations Sample.busy_set;
           ListStackSetOperations Sample.busy_set ].
  eexists. split; [reflexivity|]. split; [|reflexivity].
  simpl. intros [H|[H|[H|[H|[]]]]]; discriminate H.
Qed.

Lemma C10_witness :
  let '(o, t) :=
    lifecycle_eventbridge_processing Sample.world Sample.env 1
      (Sample.lifecycle_event "SUCCEEDED" "111111111111") [] in
  telemetry t = [telemetry_post "acme.lacework.net" EmptyString]
  /\ (exists rest,
        calls_of t =
          telemetry_post "acme.lacework.net" EmptyString
            :: ListStackInstances Sample.acme "111111111111" "us-east-1"
            :: rest)
  /\ forall answer,
       let '(o', t') :=
         lifecycle_eventbridge_processing
           (with_requests_post Sample.world answer) Sample.env 1
           (Sample.lifecycle_event "SUCCEEDED" "111111111111") [] in
       o' = o /\ calls_of t' = calls_of t /\ submissions t' = submissions t.
Proof.
  apply (C10_telemetry_first_and_without_effect Sample.world Sample.env 1
           (Sample.lifecycle_event "SUCCEEDED" "111111111111")
           {| eventName := "CreateManagedAccount"; awsRegion := "us-east-1";
              createManagedAccountStatus :=
                {| state := "SUCCEEDED"; accountId := "111111111111" |} |}
           [] "acme.lacework.net" EmptyString);
    reflexivity.
Defined.

(** ** Further properties: naming, credential, telemetry, locator *)

(** X1.  [get_account_from_url] answers a dot-free prefix of the URL, and
    what it cuts off is nothing or starts with the first dot. *)
Theorem X1_account_is_the_text_before_the_first_dot (lacework_url : string) :
  has_dot (get_account_from_url lacework_url) = false
  /\ exists rest,
       lacework_url = (get_account_from_url lacework_url ++ rest)%string
       /\ (rest = EmptyString \/ exists r, rest = String "."%char r).
Proof.
  induction lacework_url as [|c u (IHd & rest & IHe & IHr)]; simpl.
  - split; [reflexivity|]. exists EmptyString. auto.
  - destruct (Ascii.eqb_spec c "."%char) as [->|Hc]; simpl.
    + split; [reflexivity|]. exists (String "."%char u). eauto.
    + apply Ascii.eqb_neq in Hc. rewrite Hc, IHd. split; [reflexivity|].
      exists rest. split; [now rewrite <- IHe|exact IHr].
Qed.

(** X2.  A tenant name without a dot comes back from its URL: the account of
    [name.rest] is [name], and a URL without any dot is its own account. *)
Theorem X2_account_of_tenant_url (name rest : string) :
  has_dot name = false ->
  get_account_from_url (name ++ String "."%char rest) = name
  /\ get_account_from_url name = name.
Proof.
  induction name as [|c name IH]; simpl; intros H.
  - split; reflexivity.
  - apply orb_false_iff in H as [Hc Hn]. rewrite Hc.
    destruct (IH Hn) as [IH1 IH2]. now rewrite IH1, IH2.
Qed.

Lemma X2_witness :
  get_account_from_url ("acme" ++ String "."%char "lacework.net") = "acme"
  /\ get_account_from_url "acme" = "acme".
Proof.
  apply (X2_account_of_tenant_url "acme" "lacework.net"). reflexivity.
Defined.

(** X3.  [get_access_token] never raises: whatever the secret store and the
    JSON parser do, it returns a token or [None], and the secret fetch is
    its one outside call. *)
Theorem X3_get_access_token_never_raises (w : World) (cred : string)
    (hc : history) :
  exists tok t,
    get_access_token w cred hc = (Returned tok, t)
    /\ calls_of t = [GetSecretValue cred].
Proof. apply get_access_token_returns. Qed.

(** X4.  [get_access_token] answers a token exactly when the secret has a
    [SecretString], that string parses, and the parsed object holds a
    non-null ["AccessToken"]; the answer is then that value. *)
Theorem X4_get_access_token_resolves_iff (w : World) (cred : string)
    (hc : history) (tok : string) :
  fst (get_access_token w cred hc) = Returned (Some tok)
  <-> exists secret_string secret_string_dict,
        get_secret_value w hc cred = inr (Some secret_string)
        /\ json_loads_secret w secret_string = inr secret_string_dict
        /\ dict_get "AccessToken" secret_string_dict = Some (Some tok).
Proof.
  unfold get_access_token. run. split.
  - destruct (get_secret_value w hc cred) as [e|[s|]]; simpl;
      try discriminate.
    destruct (json_loads_secret w s) as [e|d] eqn:Ed; simpl; try discriminate.
    destruct (dict_get "AccessToken" d) as [v|] eqn:Ev; simpl;
      try discriminate.
    intros H. inversion H; subst. eauto.
  - intros (s & d & -> & Hd & Hv). simpl. rewrite Hd. simpl. now rewrite Hv.
Qed.

(** X5.  [send_honeycomb_event] never raises: it makes exactly one post, to
    the fixed URL with the fixed headers and the formatted payload, returns
    normally, and logs a warning when the post fails. *)
Theorem X5_send_honeycomb_event_swallows_failures (w : World)
    (account event_name subaccount eventdata : string) (hc : history) :
  let payload := honeycomb_payload account subaccount event_name eventdata in
  let '(o, t) :=
    send_honeycomb_event w account event_name subaccount eventdata hc in
  o = Returned tt
  /\ calls_of t = [RequestsPost honeycomb_url honeycomb_headers payload]
  /\ forall e,
       requests_post w hc honeycomb_url payload = inl e ->
       In (Log LvWarning (MsgHoneycombError e)) t.
Proof.
  intros payload. unfold send_honeycomb_event. run. fold payload.
  destruct (requests_post w hc honeycomb_url payload) as [e|resp]; simpl.
  - repeat split. intros e' H. inversion H; subst. auto 10.
  - repeat split. discriminate.
Qed.

Lemma calls_of_continuation (tokens : list string) :
  calls_of (continuation_calls tokens) = map ListStackSetInstance tokens.
Proof.
  induction tokens as [|token tokens IH]; simpl; [reflexivity|].
  now rewrite IH.
Qed.

(** X6.  The locator never raises, its first outside call is
    [list_stack_instances] for the stack set, account and region it was
    given, and any further call is a continuation fetch. *)
Theorem X6_locator_never_raises (w : World) (fuel : nat)
    (n account region : string) (hc : history) :
  let '(o, t) := list_stack_instance_by_account_region w fuel n account region hc in
  (forall e, o <> Raised e)
  /\ exists tokens,
       calls_of t = ListStackInstances n account region
                      :: map ListStackSetInstance tokens.
Proof.
  destruct (locator_shape w fuel n account region hc)
    as (o & logged & tokens & tail & E & Hl & _ & Ht & _ & Hne).
  rewrite E. split; [exact Hne|]. exists tokens.
  rewrite !calls_of_app, Hl, Ht, calls_of_continuation. simpl.
  now rewrite app_nil_r.
Qed.

(** X7.  When the first answer has ["Summaries"] and no ["NextToken"], the
    locator answers the list of exactly those summaries, in order; for an
    empty ["Summaries"] that is the empty list, not [False]. *)
Theorem X7_locator_single_page (w : World) (fuel : nat)
    (n account region : string) (hc : history) (page : instances_page)
    (l : list instance_summary) :
  list_stack_instances w hc n account region = inr page ->
  inst_Summaries page = Some l ->
  inst_NextToken page = None ->
  fst (list_stack_instance_by_account_region w fuel n account region hc)
    = Returned (RList (map Summary l))
  /\ calls_of (snd (list_stack_instance_by_account_region w fuel n account region hc))
     = [ListStackInstances n account region]
  /\ (l = [] ->
      fst (list_stack_instance_by_account_region w fuel n account region hc)
        = Returned (RList [])).
Proof.
  intros Hp Hs Ht.
  rewrite (locator_single_page w fuel n account region hc page l Hp Hs Ht).
  repeat split. intros ->. reflexivity.
Qed.

Lemma X7_witness :
  fst (list_stack_instance_by_account_region Sample.world 0 Sample.acme
         "222222222222" "us-east-1" []) = Returned (RList (map Summary []))
  /\ calls_of (snd (list_stack_instance_by_account_region Sample.world 0
                      Sample.acme "222222222222" "us-east-1" []))
     = [ListStackInstances Sample.acme "222222222222" "us-east-1"]
  /\ (@nil instance_summary = [] ->
      fst (list_stack_instance_by_account_region Sample.world 0 Sample.acme
             "222222222222" "us-east-1" []) = Returned (RList [])).
Proof.
  apply (X7_locator_single_page Sample.world 0 Sample.acme "222222222222"
           "us-east-1" []
           {| inst_Summaries := Some []; inst_NextToken := None |} []);
    reflexivity.
Defined.

(** X8.  When the first call fails, or its answer has no ["Summaries"], the
    locator answers [False] after that one call; the failure of the call
    is logged as an error. *)
Theorem X8_locator_false_on_failure (w : World) (fuel : nat)
    (n account region : string) (hc : history) :
  (forall e, list_stack_instances w hc n account region = inl e ->
     list_stack_instance_by_account_region w fuel n account region hc =
       (Returned RFalse,
        [ Log LvInfo MsgListCalled; Log LvInfo MsgTargetSession;
          Call (ListStackInstances n account region);
          Log LvError (MsgListError e) ]))
  /\ (forall page, list_stack_instances w hc n account region = inr page ->
        inst_Summaries page = None ->
        list_stack_instance_by_account_region w fuel n account region hc =
          (Returned RFalse,
           [ Log LvInfo MsgListCalled; Log LvInfo MsgTargetSession;
             Call (ListStackInstances n account region);
             Log LvInfo (MsgStackSetResult page) ])).
Proof.
  split.
  - intros e He. unfold list_stack_instance_by_account_region. run.
    now rewrite He.
  - intros page Hp Hs. unfold list_stack_instance_by_account_region. run.
    rewrite Hp. simpl. now rewrite Hs.
Qed.

Lemma X8_witness :
  list_stack_instance_by_account_region Sample.world 3 Sample.acme
    "333333333333" "us-east-1" [] =
    (Returned RFalse,
     [ Log LvInfo MsgListCalled; Log LvInfo MsgTargetSession;
       Call (ListStackInstances Sample.acme "333333333333" "us-east-1");
       Log LvError (MsgListError (ClientError "Throttling")) ]).
Proof.
  apply (proj1 (X8_locator_false_on_failure Sample.world 3 Sample.acme
                  "333333333333" "us-east-1" [])).
  reflexivity.
Defined.

(** X9.  With a client that has no [list_stack_set_instance] the locator's
    loop ends at its first round: one iteration of fuel is enough for every
    answer of the service, and [list_stack_instances] is the only call. *)
Theorem X9_locator_ends_without_continuation (w : World) (fuel : nat)
    (n account region : string) (hc : history) :
  list_stack_set_instance w = None ->
  exists r t,
    list_stack_instance_by_account_region w (S fuel) n account region hc
      = (Returned r, t)
    /\ calls_of t = [ListStackInstances n account region].
Proof.
  intros Hnone. unfold list_stack_instance_by_account_region, drain_next_token.
  fold drain_next_token. unfold call_list_stack_set_instance. rewrite Hnone.
  run.
  destruct (list_stack_instances w hc n account region) as [e|page]; simpl;
    [eauto|].
  destruct (inst_Summaries page) as [l|]; simpl; [|eauto].
  destruct (inst_NextToken page) as [token|]; simpl; eauto.
Qed.

Lemma X9_witness :
  exists r t,
    list_stack_instance_by_account_region Sample.world 1 Sample.acme
      "444444444444" "us-east-1" [] = (Returned r, t)
    /\ calls_of t = [ListStackInstances Sample.acme "444444444444" "us-east-1"].
Proof.
  apply (X9_locator_ends_without_continuation Sample.world 0 Sample.acme
           "444444444444" "us-east-1" []).
  reflexivity.
Defined.

(** ** Further properties: the orchestrator *)

Lemma scan_pages_terminates (n : string) (pages : list (exn + operations_page))
    (b : bool) (hc : history) :
  fst (scan_pages n pages b hc) <> OutOfFuel.
Proof.
  revert b hc. induction pages as [|r pages IH]; intros b hc; simpl.
  - discriminate.
  - unfold bind, invoke. destruct r as [e|page]; simpl; [discriminate|].
    assert (Hrec : forall b' hc',
               fst (let '(o, t2) := scan_pages n pages b' hc' in
                    (o, Call (ListStackSetOperations n) :: t2)) <> OutOfFuel).
    { intros b' hc'. specialize (IH b' hc').
      now destruct (scan_pages n pages b' hc'). }
    destruct (op_Summaries page) as [ops|]; [|apply Hrec].
    destruct (scan_operations ops b); simpl; [apply Hrec|discriminate].
Qed.

Lemma process_entry_run (w : World) (sns tok : string) (messages : batch)
    (n : string) (p : params) (hc : history) :
  entry_run w sns tok messages n p
    (fst (process_entry w sns tok messages (n, p) hc))
    (calls_of (snd (process_entry w sns tok messages (n, p) hc))).
Proof.
  unfold process_entry. run.
  destruct (describe_stack_set w hc n) as [e|[]]; simpl.
  - destruct (stack_setNotFoundException w) as [cls|]; [destruct (cls e)|];
      simpl; apply (entry_run_raised w sns tok messages n p 0).
  - destruct (scan_pages_trace n (list_stack_set_operations w (DescribeStackSet n :: hc) n)
                true (DescribeStackSet n :: hc)) as [k Hk].
    pose proof (scan_pages_terminates n
                  (list_stack_set_operations w (DescribeStackSet n :: hc) n)
                  true (DescribeStackSet n :: hc)) as Hnf.
    destruct (scan_pages n _ true (DescribeStackSet n :: hc)) as [o t1].
    simpl in Hk, Hnf. subst t1.
    destruct o as [[|]|e|]; simpl.
    + destruct (create_stack_instances w _ _) as [e|r]; simpl;
        [destruct (stack_setNotFoundException w) as [cls|]; [destruct (cls e)|]|];
        simpl; unfold list_operations_calls;
        rewrite ?calls_of_app, ?calls_of_repeat; simpl; rewrite ?app_nil_r;
        first [apply entry_run_created | apply entry_run_create_failed].
    + destruct (dict_get n messages) as [entry|] eqn:Eg; simpl.
      * destruct (sns_publish w _ sns _) as [e|r]; simpl;
          unfold list_operations_calls;
          rewrite ?calls_of_app, ?calls_of_repeat; simpl; rewrite ?app_nil_r;
          now apply entry_run_requeued.
      * destruct (stack_setNotFoundException w) as [cls|];
          [destruct (cls (KeyError n))|];
          simpl; unfold list_operations_calls;
          rewrite ?calls_of_app, ?calls_of_repeat; simpl; rewrite ?app_nil_r;
          apply entry_run_raised.
    + destruct (stack_setNotFoundException w) as [cls|]; [destruct (cls e)|];
        simpl; unfold list_operations_calls;
        rewrite ?calls_of_app, ?calls_of_repeat; simpl; rewrite ?app_nil_r;
        apply entry_run_raised.
    + now elim Hnf.
Qed.

Lemma for_each_run_ind {A} (body : A -> M unit)
    (P : list A -> outcome unit -> trace -> Prop) :
  P [] (Returned tt) [] ->
  (forall x l hc,
      fst (body x hc) <> Returned tt ->
      P (x :: l) (fst (body x hc)) (snd (body x hc))) ->
  (forall x l hc o t,
      fst (body x hc) = Returned tt -> P l o t ->
      P (x :: l) o (snd (body x hc) ++ t)) ->
  forall l hc, P l (fst (for_each l body hc)) (snd (for_each l body hc)).
Proof.
  intros Hnil Hstop Hcons. induction l as [|x l IH]; intros hc; simpl.
  - exact Hnil.
  - unfold bind. pose proof (Hstop x l hc) as Hs. pose proof (Hcons x l hc) as Hc.
    destruct (body x hc) as [[[]|e|] tx]; simpl in *.
    + specialize (IH (push tx hc)).
      destruct (for_each l body (push tx hc)) as [o t]. simpl in *.
      now apply Hc.
    + apply Hs. discriminate.
    + apply Hs. discriminate.
Qed.

Lemma dict_get_Some_In {V} (key : string) (v : V) (d : list (string * V)) :
  dict_get key d = Some v -> In (key, v) d.
Proof.
  induction d as [|[k u] d IH]; simpl; [discriminate|].
  destruct (String.eqb_spec key k) as [->|Hne]; intros H.
  - inversion H; subst. now left.
  - right. now apply IH.
Qed.

(** The four ways the orchestrator can go. *)
Lemma cfn_cases (w : World) (env : environ) (messages : batch) (hc : history) :
  (env "lacework_account_sns" = None
   /\ cfn_stack_set_processing w env messages hc =
        (Raised (KeyError "lacework_account_sns"),
         [Log LvInfo MsgStackSetProcessingCalled]))
  \/ (exists sns, env "lacework_account_sns" = Some sns
      /\ env "lacework_api_credentials" = None
      /\ cfn_stack_set_processing w env messages hc =
           (Raised (KeyError "lacework_api_credentials"),
            [Log LvInfo MsgStackSetProcessingCalled]))
  \/ (exists sns cred t0,
        env "lacework_account_sns" = Some sns
        /\ env "lacework_api_credentials" = Some cred
        /\ get_access_token w cred hc = (Returned None, t0)
        /\ calls_of t0 = [GetSecretValue cred]
        /\ cfn_stack_set_processing w env messages hc =
             (Returned tt,
              Log LvInfo MsgStackSetProcessingCalled
                :: t0 ++ [Log LvError MsgUnableToGetToken]))
  \/ (exists sns cred tok t0,
        env "lacework_account_sns" = Some sns
        /\ env "lacework_api_credentials" = Some cred
        /\ get_access_token w cred hc = (Returned (Some tok), t0)
        /\ calls_of t0 = [GetSecretValue cred]
        /\ cfn_stack_set_processing w env messages hc =
             (fst (for_each messages (process_entry w sns tok messages) (push t0 hc)),
              Log LvInfo MsgStackSetProcessingCalled
                :: t0 ++ snd (for_each messages (process_entry w sns tok messages)
                                (push t0 hc)))).
Proof.
  destruct (env "lacework_account_sns") as [sns|] eqn:Hs.
  2:{ left. split; [reflexivity|].
      unfold cfn_stack_set_processing. run. now rewrite Hs. }
  destruct (env "lacework_api_credentials") as [cred|] eqn:Hc.
  2:{ right. left. exists sns. split; [reflexivity|]. split; [reflexivity|].
      unfold cfn_stack_set_processing. run. now rewrite Hs, Hc. }
  destruct (get_access_token_returns w cred hc) as ([tok|] & t0 & Ht & Hcalls).
  - right. right. right. exists sns, cred, tok, t0. repeat split; try assumption.
    rewrite (cfn_resolved w env messages hc sns cred tok t0 Hs Hc Ht).
    now destruct (for_each messages _ (push t0 hc)).
  - right. right. left. exists sns, cred, t0. repeat split; try assumption.
    exact (cfn_unresolved w env messages hc sns cred t0 Hs Hc Ht).
Qed.

(** X10.  Without [lacework_account_sns], or without
    [lacework_api_credentials], the orchestrator raises [KeyError] for the
    missing setting before any outside call: the secret is not fetched. *)
Theorem X10_orchestrator_needs_its_settings (w : World) (env : environ)
    (messages : batch) (hc : history) :
  (env "lacework_account_sns" = None ->
   cfn_stack_set_processing w env messages hc =
     (Raised (KeyError "lacework_account_sns"),
      [Log LvInfo MsgStackSetProcessingCalled]))
  /\ (forall sns, env "lacework_account_sns" = Some sns ->
        env "lacework_api_credentials" = None ->
        cfn_stack_set_processing w env messages hc =
          (Raised (KeyError "lacework_api_credentials"),
           [Log LvInfo MsgStackSetProcessingCalled])).
Proof.
  destruct (cfn_cases w env messages hc)
    as [(Hs & E)|[(sns & Hs & Hc & E)|[(sns & cred & t0 & Hs & Hc & _)
                                      |(sns & cred & tok & t0 & Hs & Hc & _)]]];
    split; intros; congruence.
Qed.

Lemma X10_witness :
  cfn_stack_set_processing Sample.world (fun _ => None)
    [(Sample.acme, Sample.one_target)] [] =
    (Raised (KeyError "lacework_account_sns"),
     [Log LvInfo MsgStackSetProcessingCalled]).
Proof.
  apply (proj1 (X10_orchestrator_needs_its_settings Sample.world (fun _ => None)
                  [(Sample.acme, Sample.one_target)] [])).
  reflexivity.
Defined.

Lemma entry_run_batch_calls (w : World) (sns tok : string) (messages : batch)
    (n : string) (p : params) (o : outcome unit) (cs : list call) :
  In (n, p) messages ->
  entry_run w sns tok messages n p o cs ->
  forall c, In c cs -> batch_call w sns tok messages c.
Proof.
  intros Hin Hrun c Hc. exists n, p. split; [exact Hin|].
  inversion Hrun as [k e|k|k e|k entry Hget]; subst; simpl in Hc;
    destruct Hc as [<-|Hc]; auto;
    try apply in_app_or in Hc; try destruct Hc as [Hc|Hc];
    try (apply repeat_spec in Hc; subst; auto);
    simpl in Hc; intuition (subst; auto).
  right. right. right. right. exists entry. split; [|reflexivity].
  now apply dict_get_Some_In.
Qed.

(** X11.  Every outside call of the orchestrator is the one secret fetch,
    made first, or a call about an entry of the batch: the describe or a
    page fetch of its stack set, the create request built from the entry's
    accounts and regions and the resolved token, the twenty-second sleep,
    or the publish of a one-key body of that entry.  In particular it never
    lists stack instances and never posts telemetry. *)
Theorem X11_orchestrator_calls_stay_in_the_batch (w : World) (env : environ)
    (messages : batch) (hc : history) (sns cred : string) :
  env "lacework_account_sns" = Some sns ->
  env "lacework_api_credentials" = Some cred ->
  exists rest,
    calls_of (snd (cfn_stack_set_processing w env messages hc))
      = GetSecretValue cred :: rest
    /\ forall c, In c rest ->
         exists tok,
           fst (get_access_token w cred hc) = Returned (Some tok)
           /\ batch_call w sns tok messages c.
Proof.
  intros Hs Hc.
  destruct (cfn_cases w env messages hc)
    as [(Hs' & _)|[(sns' & _ & Hc' & _)
                  |[(sns' & cred' & t0 & Hs' & Hc' & Ht & Hcalls & E)
                   |(sns' & cred' & tok & t0 & Hs' & Hc' & Ht & Hcalls & E)]]];
    try congruence;
    rewrite Hs in Hs'; rewrite Hc in Hc'; inversion Hs'; inversion Hc'; subst;
    rewrite E; cbn [snd calls_of]; rewrite calls_of_app, Hcalls; simpl.
  - exists []. split; [reflexivity|]. intros c [].
  - eexists. split; [reflexivity|]. intros c Hin. exists tok.
    rewrite Ht. split; [reflexivity|]. revert c Hin.
    apply (for_each_trace_ind
             (fun t => forall c, In c (calls_of t) ->
                                 batch_call w sns' tok messages c)).
    + intros c [].
    + intros t1 t2 H1 H2 c Hin. rewrite calls_of_app in Hin.
      apply in_app_or in Hin as [Hin|Hin]; auto.
    + intros [n p] hc' Hx c Hin.
      exact (entry_run_batch_calls w sns' tok messages n p _ _ Hx
               (process_entry_run w sns' tok messages n p hc') c Hin).
Qed.

Lemma X11_witness :
  exists rest,
    calls_of (snd (cfn_stack_set_processing Sample.world Sample.env
                     [(Sample.busy_set, Sample.one_target);
                      (Sample.acme, Sample.two_targets)] []))
      = GetSecretValue "LaceworkApiCredentials" :: rest
    /\ forall c, In c rest ->
         exists tok,
           fst (get_access_token Sample.world "LaceworkApiCredentials" [])
             = Returned (Some tok)
           /\ batch_call Sample.world "arn:aws:sns:topic" tok
                [(Sample.busy_set, Sample.one_target);
                 (Sample.acme, Sample.two_targets)] c.
Proof.
  apply (X11_orchestrator_calls_stay_in_the_batch Sample.world Sample.env
           [(Sample.busy_set, Sample.one_target);
            (Sample.acme, Sample.two_targets)] []
           "arn:aws:sns:topic" "LaceworkApiCredentials");
    reflexivity.
Defined.

Arguments process_entry : simpl never.

Lemma filter_calls_app (f : call -> bool) (t1 t2 : trace) :
  filter f (calls_of (t1 ++ t2)) = filter f (calls_of t1) ++ filter f (calls_of t2).
Proof. now rewrite calls_of_app, filter_app. Qed.

(** What one entry adds to the counts of a run. *)
Lemma entry_run_counts (w : World) (sns tok : string) (messages : batch)
    (n : string) (p : params) (o : outcome unit) (cs : list call) :
  entry_run w sns tok messages n p o cs ->
  List.length (filter is_sleep cs) = List.length (filter is_publish cs)
  /\ List.length (filter is_create cs) + List.length (filter is_publish cs) <= 1
  /\ (o = Returned tt ->
      List.length (filter is_create cs) + List.length (filter is_publish cs) = 1)
  /\ filter is_describe cs = [DescribeStackSet n]
  /\ filter is_secret_fetch cs = [].
Proof.
  intros H.
  inversion H as [k e|k|k e|k entry Hget]; subst; simpl;
    rewrite ?filter_app, !filter_repeat_false by reflexivity; simpl;
    repeat split; try lia; try discriminate.
Qed.

(** X12.  In every run of the orchestrator each publish goes with one
    twenty-second sleep, so the run sleeps twenty seconds for every entry
    it re-queues, and an entry gets at most one create or publish: creates
    and publishes together never outnumber the entries of the batch. *)
Theorem X12_one_sleep_per_publish (w : World) (env : environ)
    (messages : batch) (hc : history) :
  let t := snd (cfn_stack_set_processing w env messages hc) in
  List.length (filter is_sleep (calls_of t)) = List.length (published t)
  /\ List.length (created t) + List.length (published t) <= List.length messages.
Proof.
  unfold created, published.
  destruct (cfn_cases w env messages hc)
    as [(_ & E)|[(sns & _ & _ & E)
                |[(sns & cred & t0 & _ & _ & _ & Hcalls & E)
                 |(sns & cred & tok & t0 & _ & _ & _ & Hcalls & E)]]];
    rewrite E; cbn [snd calls_of]; rewrite ?calls_of_app, ?Hcalls; simpl;
    try (split; [reflexivity|lia]).
  pose proof (for_each_run_ind (process_entry w sns tok messages)
                (fun l o t =>
                   List.length (filter is_sleep (calls_of t))
                     = List.length (filter is_publish (calls_of t))
                   /\ List.length (filter is_create (calls_of t))
                        + List.length (filter is_publish (calls_of t))
                      <= List.length l)) as Hind.
  apply Hind; clear Hind.
  - simpl. split; [reflexivity|lia].
  - intros [n p] l hc' _.
    destruct (entry_run_counts w sns tok messages n p _ _
                (process_entry_run w sns tok messages n p hc'))
      as (H1 & H2 & _). simpl. split; [exact H1|lia].
  - intros [n p] l hc' o t _ (IH1 & IH2).
    destruct (entry_run_counts w sns tok messages n p _ _
                (process_entry_run w sns tok messages n p hc'))
      as (H1 & H2 & _).
    rewrite !filter_calls_app, !length_app. simpl. split; lia.
Qed.



(** X14.  When every stack set exists, every operations listing is idle
    and every create call answers, a batch with a resolved credential gets
    exactly one create request per entry, in the order of the batch, each
    built from that entry's accounts and regions and the token; nothing is
    published and the run returns normally. *)
Theorem X14_idle_batch_creates_every_entry (w : World) (env : environ)
    (messages : batch) (hc : history) (sns cred tok : string) (t0 : trace) :
  env "lacework_account_sns" = Some sns ->
  env "lacework_api_credentials" = Some cred ->
  get_access_token w cred hc = (Returned (Some tok), t0) ->
  (forall h m, describe_stack_set w h m = inr tt) ->
  (forall h m, listing_idle (list_stack_set_operations w h m) = true) ->
  (forall h req, exists resp, create_stack_instances w h req = inr resp) ->
  let '(o, t) := cfn_stack_set_processing w env messages hc in
  o = Returned tt
  /\ created t =
       map (fun x => CreateStackInstances
                       (create_request_for (fst x) (target_accounts (snd x))
                          (target_regions (snd x)) tok)) messages
  /\ published t = [].
Proof.
  intros Hs Hc Ht Hd Hl Hcr.
  rewrite (cfn_resolved w env messages hc sns cred tok t0 Hs Hc Ht).
  destruct (get_access_token_returns w cred hc) as (tok' & t0' & Ht' & Hcalls).
  rewrite Ht in Ht'. inversion Ht'; subst tok' t0'. clear Ht'.
  assert (Hall : forall (all l : batch) hc',
             fst (for_each l (process_entry w sns tok all) hc') = Returned tt
             /\ created (snd (for_each l (process_entry w sns tok all) hc')) =
                  map (fun x => CreateStackInstances
                                  (create_request_for (fst x) (target_accounts (snd x))
                                     (target_regions (snd x)) tok)) l
             /\ published (snd (for_each l (process_entry w sns tok all) hc')) = []).
  { intros all. induction l as [|[n p] l IH]; intros hc'.
    - repeat split.
    - rewrite for_each_cons. unfold bind.
      destruct (process_entry_idle w sns tok all n p hc' (Hd _ _) (Hl _ _))
        as (o & tail & He & Htail).
      rewrite He.
      assert (Ho : o = Returned tt).
      { revert He. unfold process_entry. run. rewrite Hd. simpl.
        rewrite (scan_pages_idle n _ _ (Hl _ _)). simpl.
        match goal with |- context [create_stack_instances w ?h ?r] =>
          destruct (Hcr h r) as [resp ->] end.
        simpl. intros He. now inversion He. }
      subst o.
      match goal with |- context [for_each l ?b ?h] =>
        destruct (IH h) as (I1 & I2 & I3);
        destruct (for_each l b h) as [o2 t2] end.
      simpl in I1, I2, I3. subst o2. split; [reflexivity|].
      cbn [snd].
      change (Call ?c :: tail) with ([Call c] ++ tail).
      rewrite !created_app, !published_app, I2, I3.
      unfold created, published, entry_prefix, list_operations_calls.
      rewrite calls_of_repeat, !filter_repeat_false, Htail by reflexivity.
      split; reflexivity. }
  destruct (Hall messages messages (push t0 hc)) as (H1 & H2 & H3).
  destruct (for_each messages _ (push t0 hc)) as [o t]. simpl in H1, H2, H3.
  split; [exact H1|].
  change (Log ?a ?b :: t0 ++ t) with ((Log a b :: t0) ++ t).
  rewrite created_app, published_app, H2, H3.
  unfold created, published. simpl. rewrite Hcalls. split; reflexivity.
Qed.

Lemma X14_witness :
  let messages := [(Sample.busy_set, Sample.one_target);
                   (Sample.acme, Sample.two_targets)] in
  let '(o, t) := cfn_stack_set_processing Sample.idle_world Sample.env messages [] in
  o = Returned tt
  /\ created t =
       map (fun x => CreateStackInstances
                       (create_request_for (fst x) (target_accounts (snd x))
                          (target_regions (snd x)) "tok")) messages
  /\ published t = [].
Proof.
  intros messages.
  apply (X14_idle_batch_creates_every_entry Sample.idle_world Sample.env messages
           [] "arn:aws:sns:topic" "LaceworkApiCredentials" "tok"
           (snd (get_access_token Sample.idle_world "LaceworkApiCredentials" [])));
    try reflexivity.
  intros h req. now exists "op-3".
Defined.

(** The scan reads the idle pages and stops at the first busy one. *)
Lemma scan_pages_first_busy (n : string) (idle : list operations_page)
    (busy : operations_page) (rest : list (exn + operations_page)) (hc : history) :
  forallb (fun pg => negb (page_busy pg)) idle = true ->
  page_busy busy = true ->
  scan_pages n (map inr idle ++ inr busy :: rest) true hc =
    (Returned false, list_operations_calls n (S (List.length idle))).
Proof.
  revert hc. induction idle as [|pg idle IH]; intros hc Hi Hb; simpl in *.
  - unfold bind, invoke; simpl. unfold page_busy in Hb.
    destruct (op_Summaries busy) as [ops|]; [|discriminate].
    rewrite scan_operations_true, Hb. reflexivity.
  - apply andb_true_iff in Hi as [Hpg Hi]. unfold bind, invoke; simpl.
    unfold page_busy in Hpg.
    destruct (op_Summaries pg) as [ops|].
    + rewrite scan_operations_true.
      destruct (existsb _ ops); [discriminate|]. simpl.
      now rewrite (IH _ Hi Hb).
    + now rewrite (IH _ Hi Hb).
Qed.

(** The scan raises at the first failing page fetch. *)
Lemma scan_pages_first_failure (n : string) (idle : list operations_page)
    (e : exn) (rest : list (exn + operations_page)) (hc : history) :
  forallb (fun pg => negb (page_busy pg)) idle = true ->
  scan_pages n (map inr idle ++ inl e :: rest) true hc =
    (Raised e, list_operations_calls n (S (List.length idle))).
Proof.
  revert hc. induction idle as [|pg idle IH]; intros hc Hi; simpl in *.
  - reflexivity.
  - apply andb_true_iff in Hi as [Hpg Hi]. unfold bind, invoke; simpl.
    unfold page_busy in Hpg.
    destruct (op_Summaries pg) as [ops|].
    + rewrite scan_operations_true.
      destruct (existsb _ ops); [discriminate|]. simpl.
      now rewrite (IH _ Hi).
    + now rewrite (IH _ Hi).
Qed.

(** X15.  The operations listing is read only as far as needed: when the
    first page that shows a RUNNING or STOPPING operation comes after
    [k] idle pages, the entry fetches exactly [k + 1] pages, none after the
    busy one, and then sleeps and publishes. *)
Theorem X15_listing_read_up_to_the_busy_page (w : World) (sns tok : string)
    (messages : batch) (n : string) (p : params) (hc : history)
    (idle : list operations_page) (busy : operations_page)
    (rest : list (exn + operations_page)) :
  NoDup (map fst messages) -> In (n, p) messages ->
  describe_stack_set w hc n = inr tt ->
  list_stack_set_operations w (DescribeStackSet n :: hc) n
    = map inr idle ++ inr busy :: rest ->
  forallb (fun pg => negb (page_busy pg)) idle = true ->
  page_busy busy = true ->
  calls_of (snd (process_entry w sns tok messages (n, p) hc)) =
    DescribeStackSet n
      :: repeat (ListStackSetOperations n) (S (List.length idle))
      ++ [TimeSleep 20; SnsPublish sns (json_dumps w [(n, p)])].
Proof.
  intros Hnd Hin Hd Hp Hi Hb.
  unfold process_entry. run. rewrite Hd. simpl. rewrite Hp.
  rewrite (scan_pages_first_busy n idle busy rest _ Hi Hb).
  rewrite (dict_get_NoDup n p messages Hnd Hin). run.
  destruct (sns_publish w _ sns _) as [e|r]; simpl;
    unfold list_operations_calls; simpl;
    rewrite !calls_of_app, calls_of_repeat; reflexivity.
Qed.

Lemma X15_witness :
  calls_of (snd (process_entry Sample.world "arn:aws:sns:topic" "tok"
                   [(Sample.busy_set, Sample.one_target)]
                   (Sample.busy_set, Sample.one_target) [])) =
    DescribeStackSet Sample.busy_set
      :: repeat (ListStackSetOperations Sample.busy_set)
           (S (List.length [Sample.idle_page]))
      ++ [TimeSleep 20;
          SnsPublish "arn:aws:sns:topic"
            (json_dumps Sample.world [(Sample.busy_set, Sample.one_target)])].
Proof.
  apply (X15_listing_read_up_to_the_busy_page Sample.world "arn:aws:sns:topic"
           "tok" [(Sample.busy_set, Sample.one_target)] Sample.busy_set
           Sample.one_target [] [Sample.idle_page] Sample.busy_page
           [inr Sample.idle_page]);
    try reflexivity.
  - distinct_keys.
  - now left.
Defined.

(** X16.  A failing page fetch is not read as idle: when the listing fails
    before any page has shown a busy operation, the entry raises, with no
    create call, no sleep and no publish. *)
Theorem X16_listing_failure_raises (w : World) (sns tok : string)
    (messages : batch) (n : string) (p : params) (hc : history)
    (idle : list operations_page) (e : exn)
    (rest : list (exn + operations_page)) :
  describe_stack_set w hc n = inr tt ->
  list_stack_set_operations w (DescribeStackSet n :: hc) n
    = map inr idle ++ inl e :: rest ->
  forallb (fun pg => negb (page_busy pg)) idle = true ->
  let '(o, t) := process_entry w sns tok messages (n, p) hc in
  (exists e', o = Raised e'
              /\ (stack_setNotFoundException w = None ->
                  e' = AttributeError "stack_setNotFoundException")
              /\ (forall cls, stack_setNotFoundException w = Some cls -> e' = e))
  /\ calls_of t =
       DescribeStackSet n
         :: repeat (ListStackSetOperations n) (S (List.length idle)).
Proof.
  intros Hd Hp Hi.
  unfold process_entry. run. rewrite Hd. simpl. rewrite Hp.
  rewrite (scan_pages_first_failure n idle e rest _ Hi).
  destruct (stack_setNotFoundException w) as [cls|]; [destruct (cls e)|];
    simpl; unfold list_operations_calls; simpl;
    rewrite ?calls_of_app, calls_of_repeat; simpl; rewrite ?app_nil_r;
    (split; [eexists; split; [reflexivity|split; intros; congruence]
            |reflexivity]).
Qed.

Lemma X16_witness :
  let '(o, t) := process_entry Sample.rough_world "arn:aws:sns:topic" "tok"
                   [(Sample.acme, Sample.one_target)]
                   (Sample.acme, Sample.one_target) [] in
  (exists e', o = Raised e'
              /\ (stack_setNotFoundException Sample.rough_world = None ->
                  e' = AttributeError "stack_setNotFoundException")
              /\ (forall cls, stack_setNotFoundException Sample.rough_world
                              = Some cls -> e' = ClientError "Throttling"))
  /\ calls_of t =
       DescribeStackSet Sample.acme
         :: repeat (ListStackSetOperations Sample.acme)
              (S (List.length [Sample.idle_page])).
Proof.
  apply (X16_listing_failure_raises Sample.rough_world "arn:aws:sns:topic" "tok"
           [(Sample.acme, Sample.one_target)] Sample.acme Sample.one_target []
           [Sample.idle_page] (ClientError "Throttling") [inr Sample.busy_page]);
    reflexivity.
Defined.

(** X17.  A refused create call is not re-queued: when the stack set
    exists, the listing is idle and [create_stack_instances] raises, the
    entry raises after that one create call, without sleep or publish. *)
Theorem X17_create_failure_raises (w : World) (sns tok : string)
    (messages : batch) (n : string) (p : params) (hc : history) (e : exn) :
  describe_stack_set w hc n = inr tt ->
  listing_idle (list_stack_set_operations w (DescribeStackSet n :: hc) n) = true ->
  let pages := list_stack_set_operations w (DescribeStackSet n :: hc) n in
  let req := create_request_for n (target_accounts p) (target_regions p) tok in
  create_stack_instances w
    (push (list_operations_calls n (List.length pages)) (DescribeStackSet n :: hc))
    req = inl e ->
  let '(o, t) := process_entry w sns tok messages (n, p) hc in
  (exists e', o = Raised e'
              /\ (stack_setNotFoundException w = None ->
                  e' = AttributeError "stack_setNotFoundException")
              /\ (forall cls, stack_setNotFoundException w = Some cls -> e' = e))
  /\ calls_of t =
       DescribeStackSet n
         :: repeat (ListStackSetOperations n) (List.length pages)
         ++ [CreateStackInstances req].
Proof.
  intros Hd Hl pages req Hc.
  unfold process_entry. run. rewrite Hd. simpl. fold pages.
  rewrite (scan_pages_idle n pages _ Hl). simpl. fold req.
  unfold push in Hc. rewrite Hc. simpl.
  destruct (stack_setNotFoundException w) as [cls|]; [destruct (cls e)|];
    simpl; unfold list_operations_calls;
    rewrite ?calls_of_app, calls_of_repeat; simpl; rewrite ?app_nil_r;
    (split; [eexists; split; [reflexivity|split; intros; congruence]
            |reflexivity]).
Qed.

Lemma X17_witness :
  let '(o, t) := process_entry Sample.rough_world "arn:aws:sns:topic" "tok"
                   [(Sample.other_set, Sample.one_target)]
                   (Sample.other_set, Sample.one_target) [] in
  (exists e', o = Raised e'
              /\ (stack_setNotFoundException Sample.rough_world = None ->
                  e' = AttributeError "stack_setNotFoundException")
              /\ (forall cls, stack_setNotFoundException Sample.rough_world
                              = Some cls ->
                              e' = ClientError "OperationInProgressException"))
  /\ calls_of t =
       DescribeStackSet Sample.other_set
         :: repeat (ListStackSetOperations Sample.other_set) 1
         ++ [CreateStackInstances
               (create_request_for Sample.other_set
                  (target_accounts Sample.one_target)
                  (target_regions Sample.one_target) "tok")].
Proof.
  apply (X17_create_failure_raises Sample.rough_world "arn:aws:sns:topic" "tok"
           [(Sample.other_set, Sample.one_target)]
           Sample.other_set Sample.one_target []
           (ClientError "OperationInProgressException"));
    reflexivity.
Defined.

(** ** Further properties: the lifecycle path and the dispatcher *)

(** X18.  A lifecycle notification whose state is not SUCCEEDED is logged
    as an error and nothing else happens: no outside call, no telemetry,
    no work item, and the handling returns normally. *)
Theorem X18_failed_account_creation_is_only_logged (w : World) (env : environ)
    (fuel : nat) (ev : lambda_event) (d : event_detail) (hc : history) :
  detail ev = Some d ->
  state (createManagedAccountStatus d) <> "SUCCEEDED" ->
  lifecycle_eventbridge_processing w env fuel ev hc =
    (Returned tt,
     [ Log LvInfo MsgLifecycleCalled; Log LvInfo (MsgEventDump ev);
       Log LvError (MsgInvalidEventState ev) ]).
Proof.
  intros Hd Hst. apply String.eqb_neq in Hst.
  unfold lifecycle_eventbridge_processing. run. rewrite Hd. simpl.
  now rewrite Hst.
Qed.

Lemma X18_witness :
  lifecycle_eventbridge_processing Sample.world Sample.env 1
    (Sample.lifecycle_event "FAILED" "111111111111") [] =
    (Returned tt,
     [ Log LvInfo MsgLifecycleCalled;
       Log LvInfo (MsgEventDump (Sample.lifecycle_event "FAILED" "111111111111"));
       Log LvError (MsgInvalidEventState
                      (Sample.lifecycle_event "FAILED" "111111111111")) ]).
Proof.
  apply (X18_failed_account_creation_is_only_logged Sample.world Sample.env 1
           (Sample.lifecycle_event "FAILED" "111111111111")
           {| eventName := "CreateManagedAccount"; awsRegion := "us-east-1";
              createManagedAccountStatus :=
                {| state := "FAILED"; accountId := "111111111111" |} |} []).
  - reflexivity.
  - discriminate.
Defined.

(** X19.  For a SUCCEEDED notification the two naming settings are read
    before anything is sent: without [lacework_url], or without
    [lacework_sub_account_name], the handling raises [KeyError] for the
    missing one and has made no outside call, not even the telemetry post. *)
Theorem X19_lifecycle_needs_its_settings (w : World) (env : environ)
    (fuel : nat) (ev : lambda_event) (d : event_detail) (hc : history) :
  detail ev = Some d ->
  state (createManagedAccountStatus d) = "SUCCEEDED" ->
  (env "lacework_url" = None ->
   lifecycle_eventbridge_processing w env fuel ev hc =
     (Raised (KeyError "lacework_url"),
      [Log LvInfo MsgLifecycleCalled; Log LvInfo (MsgEventDump ev)]))
  /\ (forall url, env "lacework_url" = Some url ->
        env "lacework_sub_account_name" = None ->
        lifecycle_eventbridge_processing w env fuel ev hc =
          (Raised (KeyError "lacework_sub_account_name"),
           [Log LvInfo MsgLifecycleCalled; Log LvInfo (MsgEventDump ev)])).
Proof.
  intros Hd Hst. split.
  - intros Hu. unfold lifecycle_eventbridge_processing. run. rewrite Hd. simpl.
    rewrite Hst. simpl. now rewrite Hu.
  - intros url Hu Hs. unfold lifecycle_eventbridge_processing. run.
    rewrite Hd. simpl. rewrite Hst. simpl. rewrite Hu. simpl. now rewrite Hs.
Qed.

Lemma X19_witness :
  lifecycle_eventbridge_processing Sample.world (fun _ => None) 1
    (Sample.lifecycle_event "SUCCEEDED" "111111111111") [] =
    (Raised (KeyError "lacework_url"),
     [ Log LvInfo MsgLifecycleCalled;
       Log LvInfo (MsgEventDump
                     (Sample.lifecycle_event "SUCCEEDED" "111111111111")) ]).
Proof.
  apply (proj1 (X19_lifecycle_needs_its_settings Sample.world (fun _ => None) 1
                  (Sample.lifecycle_event "SUCCEEDED" "111111111111")
                  {| eventName := "CreateManagedAccount";
                     awsRegion := "us-east-1";
                     createManagedAccountStatus :=
                       {| state := "SUCCEEDED";
                          accountId := "111111111111" |} |} []
                  eq_refl eq_refl)).
  reflexivity.
Defined.

(** X20.  For a SUCCEEDED notification whose existence check answers the
    empty list, the handling goes on with the orchestrator on the one-entry
    work item of the derived stack set, the notification's account and its
    region: the outcome is the orchestrator's, and the outside calls are
    the telemetry post, the existence check and then the orchestrator's. *)
Theorem X20_new_account_is_submitted (w : World) (env : environ)
    (fuel : nat) (ev : lambda_event) (d : event_detail) (hc : history)
    (url sub : string) (page : instances_page) :
  detail ev = Some d ->
  state (createManagedAccountStatus d) = "SUCCEEDED" ->
  env "lacework_url" = Some url ->
  env "lacework_sub_account_name" = Some sub ->
  let account := accountId (createManagedAccountStatus d) in
  let region := awsRegion d in
  let n := derived_stack_set_name url sub in
  let check := ListStackInstances n account region in
  list_stack_instances w (telemetry_post url sub :: hc) n account region = inr page ->
  inst_Summaries page = Some [] ->
  inst_NextToken page = None ->
  let orchestrator :=
    cfn_stack_set_processing w env
      [(n, {| target_accounts := [account]; target_regions := [region] |})]
      (check :: telemetry_post url sub :: hc) in
  let '(o, t) := lifecycle_eventbridge_processing w env fuel ev hc in
  o = fst orchestrator
  /\ calls_of t = telemetry_post url sub :: check :: calls_of (snd orchestrator).
Proof.
  intros Hd Hst Hurl Hsub account region n check Hp Hs Ht orchestrator.
  destruct (lifecycle_succeeded w env fuel ev d hc url sub Hd Hst Hurl Hsub)
    as (head & Hcalls & _ & Hrun).
  cbv zeta in Hrun. fold account region n in Hrun. rewrite Hrun.
  rewrite (locator_single_page w fuel n account region _ page [] Hp Hs Ht).
  simpl map. unfold lifecycle_work_item. fold n.
  change (push _ (telemetry_post url sub :: hc))
    with (check :: telemetry_post url sub :: hc).
  fold orchestrator. destruct orchestrator as [o tc]. split; [reflexivity|].
  rewrite !calls_of_app, Hcalls. reflexivity.
Qed.

Lemma X20_witness :
  let orchestrator :=
    cfn_stack_set_processing Sample.world Sample.env
      [(Sample.acme,
        {| target_accounts := ["222222222222"]; target_regions := ["us-east-1"] |})]
      [ListStackInstances Sample.acme "222222222222" "us-east-1";
       telemetry_post "acme.lacework.net" EmptyString] in
  let '(o, t) :=
    lifecycle_eventbridge_processing Sample.world Sample.env 1
      (Sample.lifecycle_event "SUCCEEDED" "222222222222") [] in
  o = fst orchestrator
  /\ calls_of t =
       telemetry_post "acme.lacework.net" EmptyString
         :: ListStackInstances Sample.acme "222222222222" "us-east-1"
         :: calls_of (snd orchestrator).
Proof.
  apply (X20_new_account_is_submitted Sample.world Sample.env 1
           (Sample.lifecycle_event "SUCCEEDED" "222222222222")
           {| eventName := "CreateManagedAccount"; awsRegion := "us-east-1";
              createManagedAccountStatus :=
                {| state := "SUCCEEDED"; accountId := "222222222222" |} |}
           [] "acme.lacework.net" EmptyString
           {| inst_Summaries := Some []; inst_NextToken := None |});
    reflexivity.
Defined.

(** X21.  An event that has no [Records] and is not a
    [CreateManagedAccount] notification is not processed: the dispatcher
    logs that, makes no outside call and returns normally. *)
Theorem X21_other_events_are_ignored (w : World) (env : environ) (fuel : nat)
    (ev : lambda_event) (hc : history) :
  Records ev = None ->
  (detail ev = None
   \/ exists d, detail ev = Some d /\ eventName d <> "CreateManagedAccount") ->
  lambda_handler w env fuel ev hc =
    (Returned tt,
     [ Log LvInfo MsgLambdaHandlerCalled; Log LvInfo (MsgEventDump ev);
       Log LvInfo MsgEventNotProcessed ]).
Proof.
  intros Hr Hdet. unfold lambda_handler. rewrite Hr.
  destruct Hdet as [->|(d & -> & Hne)].
  - reflexivity.
  - apply String.eqb_neq in Hne. rewrite Hne. reflexivity.
Qed.

Lemma X21_witness :
  lambda_handler Sample.world Sample.env 1
    {| Records := None; detail := None |} [] =
    (Returned tt,
     [ Log LvInfo MsgLambdaHandlerCalled;
       Log LvInfo (MsgEventDump {| Records := None; detail := None |});
       Log LvInfo MsgEventNotProcessed ]).
Proof.
  apply (X21_other_events_are_ignored Sample.world Sample.env 1
           {| Records := None; detail := None |} []).
  - reflexivity.
  - now left.
Defined.

(** X22.  The dispatcher logs what it absorbs: when the processing it
    routes to raises [e], on the records path (taken whenever the event has
    [Records], whatever else it has) or on the lifecycle path, the
    dispatcher returns normally and its last log line is the error [e]. *)
Theorem X22_dispatcher_logs_the_exception (w : World) (env : environ)
    (fuel : nat) (ev : lambda_event) (hc : history) (e : exn) (t : trace) :
  (forall records,
      Records ev = Some records ->
      stack_set_sns_processing w env records hc = (Raised e, t) ->
      lambda_handler w env fuel ev hc =
        (Returned tt,
         [Log LvInfo MsgLambdaHandlerCalled; Log LvInfo (MsgEventDump ev)]
           ++ t ++ [Log LvError (MsgHandlerError e)]))
  /\ (forall d,
        Records ev = None -> detail ev = Some d ->
        eventName d = "CreateManagedAccount" ->
        lifecycle_eventbridge_processing w env fuel ev hc = (Raised e, t) ->
        lambda_handler w env fuel ev hc =
          (Returned tt,
           [Log LvInfo MsgLambdaHandlerCalled; Log LvInfo (MsgEventDump ev)]
             ++ t ++ [Log LvError (MsgHandlerError e)])).
Proof.
  split.
  - intros records Hr Hrun. unfold lambda_handler. rewrite Hr.
    unfold bind at 1 2, log at 1 2, try_except.
    change (push [] (push [Log LvInfo (MsgEventDump ev)]
                       (push [Log LvInfo MsgLambdaHandlerCalled] hc))) with hc.
    change (push [Log LvInfo (MsgEventDump ev)]
              (push [Log LvInfo MsgLambdaHandlerCalled] hc)) with hc.
    rewrite Hrun. reflexivity.
  - intros d Hr Hd Hn Hrun. unfold lambda_handler. rewrite Hr, Hd, Hn.
    change (String.eqb "CreateManagedAccount" "CreateManagedAccount") with true.
    cbv iota.
    unfold bind at 1 2, log at 1 2, try_except.
    change (push [Log LvInfo (MsgEventDump ev)]
              (push [Log LvInfo MsgLambdaHandlerCalled] hc)) with hc.
    rewrite Hrun. reflexivity.
Qed.

Lemma X22_witness :
  let ev := Sample.lifecycle_event "SUCCEEDED" "333333333333" in
  let t := snd (lifecycle_eventbridge_processing Sample.world Sample.env 1 ev []) in
  lambda_handler Sample.world Sample.env 1 ev [] =
    (Returned tt,
     [Log LvInfo MsgLambdaHandlerCalled; Log LvInfo (MsgEventDump ev)]
       ++ t ++ [Log LvError (MsgHandlerError
                               (TypeError "object of type 'bool' has no len()"))]).
Proof.
  intros ev t.
  apply (proj2 (X22_dispatcher_logs_the_exception Sample.world Sample.env 1 ev []
                  (TypeError "object of type 'bool' has no len()") t)
           {| eventName := "CreateManagedAccount"; awsRegion := "us-east-1";
              createManagedAccountStatus :=
                {| state := "SUCCEEDED"; accountId := "333333333333" |} |});
    reflexivity.
Defined.

(** X23.  A record whose message does not parse ends the records path:
    when the records before it are processed without an exception and
    [json.loads] fails on its message, the parse error is raised, the
    orchestrator is not entered for that record, and the records after it
    are not looked at. *)
Theorem X23_unreadable_record_stops_the_rest (w : World) (env : environ)
    (pre post : list sns_record) (r : sns_record) (hc : history)
    (t1 : trace) (e : exn) :
  stack_set_sns_processing w env pre hc = (Returned tt, t1) ->
  json_loads w (Sns_Message r) = inl e ->
  stack_set_sns_processing w env (pre ++ r :: post) hc = (Raised e, t1).
Proof.
  unfold stack_set_sns_processing. unfold bind at 1 3, log.
  change (push [Log LvInfo MsgMessageProcessingCalled] hc) with hc.
  intros Hpre Hbad.
  destruct (for_each pre _ hc) as [o t] eqn:E. inversion Hpre; subst o t1.
  rewrite (for_each_app _ pre _ _ t E), for_each_cons.
  unfold bind at 1 2, lift. rewrite Hbad. unfold raise. simpl.
  now rewrite app_nil_r.
Qed.

Lemma X23_witness :
  stack_set_sns_processing Sample.world Sample.env
    ([ {| Sns_Message := Sample.dumps [(Sample.acme, Sample.one_target)] |} ]
       ++ {| Sns_Message := "not json" |}
       :: [ {| Sns_Message := Sample.dumps [(Sample.acme, Sample.one_target)] |} ])
    [] =
    (Raised (OtherError "JSONDecodeError"),
     snd (stack_set_sns_processing Sample.world Sample.env
            [ {| Sns_Message := Sample.dumps [(Sample.acme, Sample.one_target)] |} ]
            [])).
Proof.
  apply (X23_unreadable_record_stops_the_rest Sample.world Sample.env
           [ {| Sns_Message := Sample.dumps [(Sample.acme, Sample.one_target)] |} ]
           [ {| Sns_Message := Sample.dumps [(Sample.acme, Sample.one_target)] |} ]
           {| Sns_Message := "not json" |} []);
    reflexivity.
Defined.

(** X24.  The retry loop is stable.  Where [json.loads] reads back what
    [json.dumps] wrote, the message published for a busy entry, delivered
    again as a record while the stack set is still busy, is published
    again unchanged, with no create call, and the run returns normally. *)
Theorem X24_requeued_message_is_republished_unchanged (w : World)
    (env : environ) (n : string) (p : params) (hc : history)
    (sns cred tok : string) (t0 : trace) :
  env "lacework_account_sns" = Some sns ->
  env "lacework_api_credentials" = Some cred ->
  get_access_token w cred hc = (Returned (Some tok), t0) ->
  json_loads w (json_dumps w [(n, p)]) = inr [(n, p)] ->
  describe_stack_set w (push t0 hc) n = inr tt ->
  listing_busy (list_stack_set_operations w (DescribeStackSet n :: push t0 hc) n)
    = true ->
  let message := json_dumps w [(n, p)] in
  let '(o, t) :=
    stack_set_sns_processing w env [ {| Sns_Message := message |} ] hc in
  o = Returned tt
  /\ published t = [SnsPublish sns message]
  /\ created t = [].
Proof.
  intros Hs Hc Ht Hrt Hd Hl message.
  unfold stack_set_sns_processing. unfold bind at 1, log.
  change (push [Log LvInfo MsgMessageProcessingCalled] hc) with hc.
  rewrite for_each_cons. unfold bind at 1 2, lift.
  subst message. cbn [Sns_Message]. rewrite Hrt. unfold ret at 1.
  cbv beta iota. change (push [] hc) with hc.
  rewrite (cfn_resolved w env [(n, p)] hc sns cred tok t0 Hs Hc Ht).
  rewrite for_each_cons. unfold bind at 1.
  assert (Hnd : NoDup (map fst [(n, p)])) by (repeat constructor; simpl; tauto).
  destruct (process_entry_busy w sns tok [(n, p)] n p (push t0 hc) Hnd
              (or_introl eq_refl) Hd Hl) as [k Hk].
  cbv zeta in Hk. rewrite Hk. simpl for_each. unfold ret.
  destruct (get_access_token_returns w cred hc) as (tok' & t0' & Ht' & Hcalls).
  rewrite Ht in Ht'. inversion Ht'; subst tok' t0'. clear Ht'.
  cbn [fst snd]. split; [reflexivity|].
  unfold published, created, entry_prefix, list_operations_calls.
  cbn [calls_of app]. rewrite !calls_of_app, Hcalls. cbn [calls_of app].
  rewrite !calls_of_app, calls_of_repeat. cbn [calls_of app].
  destruct (sns_publish w _ sns _) as [e|r]; simpl; rewrite ?app_nil_r;
    simpl; rewrite !filter_app, !filter_repeat_false by reflexivity;
    split; reflexivity.
Qed.

Lemma X24_witness :
  let message := Sample.dumps [(Sample.busy_set, Sample.one_target)] in
  let '(o, t) :=
    stack_set_sns_processing Sample.rough_world Sample.env
      [ {| Sns_Message := message |} ] [] in
  o = Returned tt
  /\ published t = [SnsPublish "arn:aws:sns:topic" message]
  /\ created t = [].
Proof.
  apply (X24_requeued_message_is_republished_unchanged Sample.rough_world
           Sample.env Sample.busy_set Sample.one_target []
           "arn:aws:sns:topic" "LaceworkApiCredentials" "tok"
           (snd (get_access_token Sample.rough_world "LaceworkApiCredentials" [])));
    reflexivity.
Defined.

(** The orchestrator fetches the secret at most once, and exactly once
    when it returns normally. *)
Lemma cfn_secret_fetches (w : World) (env : environ) (messages : batch)
    (hc : history) :
  let '(o, t) := cfn_stack_set_processing w env messages hc in
  List.length (filter is_secret_fetch (calls_of t)) <= 1
  /\ (o = Returned tt ->
      List.length (filter is_secret_fetch (calls_of t)) = 1).
Proof.
  destruct (cfn_cases w env messages hc)
    as [(_ & E)|[(sns & _ & _ & E)
                |[(sns & cred & t0 & _ & _ & _ & Hcalls & E)
                 |(sns & cred & tok & t0 & _ & _ & _ & Hcalls & E)]]];
    rewrite E; cbn [calls_of]; rewrite ?calls_of_app, ?Hcalls; simpl;
    try (split; [lia|discriminate]); try (split; [lia|reflexivity]).
  assert (H : filter is_secret_fetch
                (calls_of (snd (for_each messages (process_entry w sns tok messages)
                                  (push t0 hc)))) = []).
  { apply (for_each_trace_ind
             (fun t => filter is_secret_fetch (calls_of t) = [])).
    - reflexivity.
    - intros t1 t2 H1 H2. now rewrite filter_calls_app, H1, H2.
    - intros [n p] hc' _.
      now destruct (entry_run_counts w sns tok messages n p _ _
                      (process_entry_run w sns tok messages n p hc'))
        as (_ & _ & _ & _ & H). }
  rewrite H. simpl. split; [lia|reflexivity].
Qed.

(** X25.  The credential is resolved anew for every record: a run of the
    records path fetches the secret at most once per record, and exactly
    once per record when it returns normally. *)
Theorem X25_one_secret_fetch_per_record (w : World) (env : environ)
    (records : list sns_record) (hc : history) :
  let '(o, t) := stack_set_sns_processing w env records hc in
  List.length (filter is_secret_fetch (calls_of t)) <= List.length records
  /\ (o = Returned tt ->
      List.length (filter is_secret_fetch (calls_of t)) = List.length records).
Proof.
  unfold stack_set_sns_processing. unfold bind at 1, log.
  change (push [Log LvInfo MsgMessageProcessingCalled] hc) with hc.
  set (body := fun message : sns_record =>
                 payload <- lift (json_loads w (Sns_Message message)) ;;
                 cfn_stack_set_processing w env payload).
  assert (Hbody : forall x hc',
             List.length (filter is_secret_fetch (calls_of (snd (body x hc')))) <= 1
             /\ (fst (body x hc') = Returned tt ->
                 List.length (filter is_secret_fetch (calls_of (snd (body x hc'))))
                   = 1)).
  { intros x hc'. unfold body, bind, lift.
    destruct (json_loads w (Sns_Message x)) as [e|payload]; simpl.
    - split; [lia|discriminate].
    - pose proof (cfn_secret_fetches w env payload (push [] hc')) as H.
      destruct (cfn_stack_set_processing w env payload (push [] hc')) as [o t].
      exact H. }
  pose proof (for_each_run_ind body
                (fun l o t =>
                   List.length (filter is_secret_fetch (calls_of t))
                     <= List.length l
                   /\ (o = Returned tt ->
                       List.length (filter is_secret_fetch (calls_of t))
                         = List.length l))) as Hind.
  assert (Hall : forall l hc',
             List.length (filter is_secret_fetch
                            (calls_of (snd (for_each l body hc')))) <= List.length l
             /\ (fst (for_each l body hc') = Returned tt ->
                 List.length (filter is_secret_fetch
                                (calls_of (snd (for_each l body hc'))))
                   = List.length l)).
  { apply Hind; clear Hind.
    - simpl. split; [lia|reflexivity].
    - intros x l hc' Hne. destruct (Hbody x hc') as [H1 H2]. simpl.
      split; [lia|]. intros H. contradiction.
    - intros x l hc' o t Hret [IH1 IH2]. destruct (Hbody x hc') as [H1 H2].
      rewrite filter_calls_app, length_app. simpl. specialize (H2 Hret).
      split; [lia|]. intros Ho. specialize (IH2 Ho). lia. }
  specialize (Hall records hc).
  destruct (for_each records body hc) as [o t]. simpl in Hall. exact Hall.
Qed.

Lemma X25_witness :
  let '(o, t) :=
    stack_set_sns_processing Sample.world Sample.env
      [ {| Sns_Message := Sample.dumps [(Sample.acme, Sample.one_target)] |};
        {| Sns_Message := Sample.dumps [(Sample.acme, Sample.one_target)] |} ]
      [] in
  List.length (filter is_secret_fetch (calls_of t)) <= 2
  /\ (o = Returned tt ->
      List.length (filter is_secret_fetch (calls_of t)) = 2).
Proof.
  apply (X25_one_secret_fetch_per_record Sample.world Sample.env
           [ {| Sns_Message := Sample.dumps [(Sample.acme, Sample.one_target)] |};
             {| Sns_Message := Sample.dumps [(Sample.acme, Sample.one_target)] |} ]
           []).
Defined.

Lemma X4_witness :
  fst (get_access_token Sample.world "LaceworkApiCredentials" [])
    = Returned (Some "tok").
Proof.
  apply (proj2 (X4_get_access_token_resolves_iff Sample.world
                  "LaceworkApiCredentials" [] "tok")).
  exists "secret", [("AccessToken", Some "tok")]. repeat split.
Defined.

Lemma X5_witness :
  let payload :=
    honeycomb_payload "acme" EmptyString "add account" default_eventdata in
  let '(o, t) :=
    send_honeycomb_event Sample.rough_world "acme" "add account" EmptyString
      default_eventdata [] in
  o = Returned tt
  /\ calls_of t = [RequestsPost honeycomb_url honeycomb_headers payload]
  /\ forall e,
       requests_post Sample.rough_world [] honeycomb_url payload = inl e ->
       In (Log LvWarning (MsgHoneycombError e)) t.
Proof.
  apply (X5_send_honeycomb_event_swallows_failures Sample.rough_world "acme"
           "add account" EmptyString default_eventdata []).
Defined.

Lemma X6_witness :
  let '(o, t) :=
    list_stack_instance_by_account_region Sample.lenient_world 2 Sample.acme
      "444444444444" "us-east-1" [] in
  (forall e, o <> Raised e)
  /\ exists tokens,
       calls_of t = ListStackInstances Sample.acme "444444444444" "us-east-1"
                      :: map ListStackSetInstance tokens.
Proof.
  apply (X6_locator_never_raises Sample.lenient_world 2 Sample.acme
           "444444444444" "us-east-1" []).
Defined.
